(** * Strava segment tracker: the daily log accumulator and the trend renderer

    A shallow embedding of [strava_daily_tracker.py]: [get_segment_data],
    [update_master_log], [generate_plot] and the main fetch/update/plot loop,
    with the master CSV file as explicit state. *)

From Stdlib Require Import ZArith List String Ascii Bool Lia.
From Stdlib Require Import Sorting.Sorted Sorting.Permutation.
Import ListNotations.
Local Open Scope string_scope.
Local Open Scope list_scope.
Local Open Scope Z_scope.

Set Implicit Arguments.

(** ** Python values and [int()] *)

(** The values that reach the tracker from the configuration and from the
    JSON answers of the API: [None], integers and strings. *)
Inductive pyval : Type :=
| PyNone
| PyInt (z : Z)
| PyStr (s : string).

(** Exceptions that the code lets escape or catches by class. *)
Inductive exn : Type :=
| ValueError
| TypeError.

Inductive result (A : Type) : Type :=
| Ok (a : A)
| Raise (e : exn).
Arguments Raise {A} e.

Definition bind {A B : Type} (m : result A) (k : A -> result B) : result B :=
  match m with
  | Ok a => k a
  | Raise e => Raise e
  end.

Notation "x <- m ;; k" := (bind m (fun x => k))
  (at level 61, m at next level, right associativity).

(** [str.isspace] on the ASCII range, the white space of [str.strip]. *)
Definition is_space (c : ascii) : bool :=
  let n := nat_of_ascii c in
  (((9 <=? n) && (n <=? 13)) || ((28 <=? n) && (n <=? 32)))%nat.

Definition digit_of (c : ascii) : option Z :=
  let n := nat_of_ascii c in
  if ((48 <=? n) && (n <=? 57))%nat then Some (Z.of_nat (n - 48)) else None.

Fixpoint lstrip (l : list ascii) : list ascii :=
  match l with
  | c :: l' => if is_space c then lstrip l' else l
  | [] => []
  end.

Definition strip (l : list ascii) : list ascii :=
  rev (lstrip (rev (lstrip l))).

(** The white space that [int()] skips around an ASCII literal: tab to
    carriage return, and the space. *)
Definition is_int_space (c : ascii) : bool :=
  let n := nat_of_ascii c in
  (((9 <=? n) && (n <=? 13)) || (n =? 32))%nat.

Fixpoint int_lstrip (l : list ascii) : list ascii :=
  match l with
  | c :: l' => if is_int_space c then int_lstrip l' else l
  | [] => []
  end.

Definition int_strip (l : list ascii) : list ascii :=
  rev (int_lstrip (rev (int_lstrip l))).

(** Decimal digits, with single underscores allowed between two digits.
    [after_digit] tells whether the previous character was a digit. *)
Fixpoint digits (acc : Z) (after_digit : bool) (l : list ascii) : option Z :=
  match l with
  | [] => if after_digit then Some acc else None
  | c :: l' =>
      match digit_of c with
      | Some d => digits (10 * acc + d) true l'
      | None =>
          if Ascii.eqb c "_"%char && after_digit then digits acc false l'
          else None
      end
  end.

(** [int(s)] for a string of ASCII characters in base ten: surrounding white
    space, an optional sign, then the digits. *)
Definition int_of_string (s : string) : option Z :=
  match int_strip (list_ascii_of_string s) with
  | c :: l =>
      if Ascii.eqb c "-"%char then option_map Z.opp (digits 0 false l)
      else if Ascii.eqb c "+"%char then digits 0 false l
      else digits 0 false (c :: l)
  | [] => None
  end.

(** [int(v)]: [TypeError] on [None], [ValueError] on a string that is not
    a literal. *)
Definition py_int (v : pyval) : result Z :=
  match v with
  | PyNone => Raise TypeError
  | PyInt z => Ok z
  | PyStr s =>
      match int_of_string s with
      | Some z => Ok z
      | None => Raise ValueError
      end
  end.

(** Truth value of a Python object, and [v or 0]. *)
Definition truthy (v : pyval) : bool :=
  match v with
  | PyNone => false
  | PyInt z => negb (Z.eqb z 0)
  | PyStr s => negb (String.eqb s EmptyString)
  end.

Definition or_zero (v : pyval) : pyval :=
  if truthy v then v else PyInt 0.

(** ** Data model *)

(** A calendar date, as its day number ([date.toordinal()]); one day
    earlier is the number minus one. *)
Definition date : Type := Z.

(** The dictionary built by [get_segment_data]: keys ['id'], ['name'],
    ['effort_count'], ['athlete_count']. *)
Record segment_data : Type := {
  seg_id : pyval;
  seg_name : string;
  effort_count : pyval;
  athlete_count : pyval
}.

(** The fields interpolated into [new_data_row], in the order of the CSV
    columns. *)
Record data_row : Type := {
  segment_id_int : Z;
  segment_name : string;
  today_str : date;
  current_total_attempts : Z;
  daily_attempts_int : Z;
  current_athlete_count : Z
}.

(** A line of the master CSV file: text (the header, or anything the file
    held before), or a row written by [update_master_log]. *)
Inductive line : Type :=
| Text (s : string)
| Data (r : data_row).

Definition header : string :=
  "segment_id,segment_name,date,total_attempts_on_date,daily_attempts,athlete_count".

(** The files the tracker touches: [all_segments_log.csv] ([None] when it
    does not exist, [Some []] when it has size zero) and whether opening it
    for writing succeeds. *)
Record files : Type := {
  master_csv : option (list line);
  writable : bool
}.

(** A row of the frame returned by [pd.read_csv]: [segment_id] is a nullable
    [Int64], the date column is parsed, [total_attempts_on_date] may be NaN
    ([PyNone]), an integer, or text. Cells that hold another kind of number
    (a fraction, an infinity) are not part of this model. *)
Record frame_row : Type := {
  segment_id : option Z;
  date_ : date;
  total_attempts_on_date : pyval;
  daily_attempts : Z
}.

Record data_frame : Type := {
  has_total_attempts_on_date : bool;
  has_daily_attempts : bool;
  rows : list frame_row
}.

(** What the [try] block around [pd.read_csv] and the column look-ups can
    end in. *)
Inductive read_result : Type :=
| EmptyDataError
| KeyError
| OtherException
| Frame (df : data_frame).

(** Lines printed as warnings, errors and the run summary. *)
Inductive diag : Type :=
| InvalidSegmentId (v : pyval)
| TotalNotConvertible (v : pyval) (sid : Z)
| TotalMissing (sid : Z) (d : date)
| WarnKeyError
| WarnCouldNotRead
| NegativeDailyAttempts (sid daily current last : Z) (last_date : option date)
| CouldNotWrite
| PlotSkippedNoFile
| PlotSkippedNoData (v : pyval)
| PlotSkippedEmptyFile
| PlotSkippedMissingColumn (v : pyval)
| ErrorGeneratingPlot (v : pyval)
| SkippingSegment (s : string)
| UnexpectedFetchError (s : string)
| NoSegmentDataFetched
| Summary (processed failed : nat).

(** ** Reading the log *)

Definition frame_row_of (r : data_row) : frame_row :=
  {| segment_id := Some (segment_id_int r);
     date_ := today_str r;
     total_attempts_on_date := PyInt (current_total_attempts r);
     daily_attempts := daily_attempts_int r |}.

Fixpoint data_rows (ls : list line) : option (list data_row) :=
  match ls with
  | [] => Some []
  | Data r :: ls' => option_map (cons r) (data_rows ls')
  | Text _ :: _ => None
  end.

(** The rows of a file in the format this program writes: the header line
    followed by rows of [update_master_log] only. *)
Definition own_format (content : list line) : option (list data_row) :=
  match content with
  | Text h :: rest => if String.eqb h header then data_rows rest else None
  | _ => None
  end.

(** The values that [pd.read_csv] holds as they were written: an identifier
    within [Int64] (the [dtype] asked for the [segment_id] column), a counter
    from 0 to the largest [int64], a date from 1677-09-22 to 2262-04-11 (the
    days of a nanosecond time stamp). *)
Definition int64 (z : Z) : bool :=
  (-9223372036854775808 <=? z) && (z <=? 9223372036854775807).

Definition counter (z : Z) : bool :=
  (0 <=? z) && (z <=? 9223372036854775807).

Definition timestamp (d : date) : bool :=
  (612412 <=? d) && (d <=? 825914).

Definition read_back (r : data_row) : bool :=
  int64 (segment_id_int r) && timestamp (today_str r) &&
  counter (current_total_attempts r) && counter (daily_attempts_int r) &&
  counter (current_athlete_count r).

Section Tracker.

(** [pandas] stands for the library on every other file: one that is not in
    the program's own format, or one of its rows holds a value that the
    library does not hold as written (an identifier beyond [Int64] makes the
    read of [update_master_log] raise). It tells what reading the file and
    looking up its [segment_id] column end in. *)
Variable pandas : list line -> read_result.

(** [pd.read_csv(MASTER_CSV_FILE, parse_dates=['date'], ...)] followed by the
    look-up of the [segment_id] column. A file of size zero has no columns to
    parse. A file in the program's own format whose rows all satisfy
    [read_back] is read as its rows: this is the one assumption made on the
    library. *)
Definition read_csv (content : list line) : read_result :=
  match content with
  | [] => EmptyDataError
  | _ =>
      match own_format content with
      | Some rs =>
          if forallb read_back rs
          then Frame {| has_total_attempts_on_date := true;
                        has_daily_attempts := true;
                        rows := map frame_row_of rs |}
          else pandas content
      | None => pandas content
      end
  end.

Definition matches (sid : Z) (r : frame_row) : bool :=
  match segment_id r with
  | Some z => Z.eqb z sid
  | None => false
  end.

(** [sort_values(by='date')] and [sort_index()]: rows in ascending date
    order. The library promises no order among rows of equal date; the model
    keeps them in file order, and the properties below use only that the
    result is sorted and holds the same rows. *)
Fixpoint insert_by_date (r : frame_row) (l : list frame_row) : list frame_row :=
  match l with
  | [] => [r]
  | x :: l' =>
      if date_ r <=? date_ x then r :: l else x :: insert_by_date r l'
  end.

Fixpoint sort_by_date (l : list frame_row) : list frame_row :=
  match l with
  | [] => []
  | x :: l' => insert_by_date x (sort_by_date l')
  end.

(** [df[df['segment_id'].notna() & (df['segment_id'] == segment_id_int)]
    .sort_values(by='date')] *)
Definition segment_df (sid : Z) (df : data_frame) : list frame_row :=
  sort_by_date (filter (matches sid) (rows df)).

(** [.iloc[-1]] *)
Fixpoint iloc_last (l : list frame_row) : option frame_row :=
  match l with
  | [] => None
  | [x] => Some x
  | _ :: l' => iloc_last l'
  end.

Definition last_entry (sid : Z) (df : data_frame) : option frame_row :=
  iloc_last (segment_df sid df).

Definition notna (v : pyval) : bool :=
  match v with
  | PyNone => false
  | _ => true
  end.

(** ** [update_master_log] *)

(** The variables the [try] block leaves behind. *)
Record history : Type := {
  last_total_attempts : Z;
  last_date_str : option date;
  is_first_entry_for_segment : bool;
  file_is_empty : bool;
  warnings : list diag
}.

Definition no_history (empty : bool) (w : list diag) : history :=
  {| last_total_attempts := 0;
     last_date_str := None;
     is_first_entry_for_segment := true;
     file_is_empty := empty;
     warnings := w |}.

Definition previous_entry (e : frame_row) (total : Z) (w : list diag) : history :=
  {| last_total_attempts := total;
     last_date_str := Some (date_ e);
     is_first_entry_for_segment := false;
     file_is_empty := false;
     warnings := w |}.

(** The [try] block, entered when the file exists and is not of size zero. *)
Definition read_history (segment_id_int : Z) (content : list line) : history :=
  match read_csv content with
  | Frame df =>
      match rows df with
      | [] => no_history true []
      | _ :: _ =>
          match last_entry segment_id_int df with
          | Some e =>
              if has_total_attempts_on_date df && notna (total_attempts_on_date e)
              then
                match py_int (total_attempts_on_date e) with
                | Ok z => previous_entry e z []
                | Raise _ =>
                    previous_entry e 0
                      [TotalNotConvertible (total_attempts_on_date e) segment_id_int]
                end
              else previous_entry e 0 [TotalMissing segment_id_int (date_ e)]
          | None => no_history false []
          end
      end
  | EmptyDataError => no_history true []
  | KeyError => no_history false [WarnKeyError]
  | OtherException => no_history true [WarnCouldNotRead]
  end.

(** [os.path.exists(MASTER_CSV_FILE)] *)
Definition file_exists (fs : files) : bool :=
  match master_csv fs with
  | Some _ => true
  | None => false
  end.

(** The history read by a call: none when the file is absent or of size
    zero, else what the [try] block finds. *)
Definition history_of (segment_id_int : Z) (fs : files) : history :=
  match master_csv fs with
  | Some (l :: ls) => read_history segment_id_int (l :: ls)
  | _ => no_history true []
  end.

(** The daily attempts: zero for a first entry, else the difference with the
    last total, reset to zero when negative. *)
Definition compute_daily_attempts (segment_id_int total : Z) (h : history)
  : Z * list diag :=
  if is_first_entry_for_segment h then (0, [])
  else
    let daily := total - last_total_attempts h in
    if daily <? 0
    then (0, [NegativeDailyAttempts segment_id_int daily total
                (last_total_attempts h) (last_date_str h)])
    else (daily, []).

(** The lines of the log file; none when the file is absent. *)
Definition lines (fs : files) : list line :=
  match master_csv fs with
  | Some content => content
  | None => []
  end.

(** The file writing block: mode ['w'] with the header when the file is new,
    empty or could not be parsed, mode ['a'] otherwise; an [IOError] is
    reported and the file left as it was. *)
Definition write_row (fs : files) (needs_header : bool) (row : data_row)
  : files * list diag :=
  if writable fs then
    let content :=
      if needs_header then [Text header; Data row]
      else lines fs ++ [Data row] in
    ({| master_csv := Some content; writable := writable fs |}, [])
  else (fs, [CouldNotWrite]).

Record outcome : Type := {
  files_after : files;
  new_data_row : option data_row;
  printed : list diag
}.

Definition update_master_log (today : date) (sd : segment_data) (fs : files)
  : result outcome :=
  match py_int (seg_id sd) with
  | Raise _ =>
      Ok {| files_after := fs;
            new_data_row := None;
            printed := [InvalidSegmentId (seg_id sd)] |}
  | Ok sid =>
      total <- py_int (or_zero (effort_count sd)) ;;
      athletes <- py_int (or_zero (athlete_count sd)) ;;
      let h := history_of sid fs in
      let '(daily, w_daily) := compute_daily_attempts sid total h in
      let row :=
        {| segment_id_int := sid;
           segment_name := seg_name sd;
           today_str := today;
           current_total_attempts := total;
           daily_attempts_int := daily;
           current_athlete_count := athletes |} in
      let '(fs', w_write) :=
        write_row fs (file_is_empty h || negb (file_exists fs)) row in
      Ok {| files_after := fs';
            new_data_row := Some row;
            printed := warnings h ++ w_daily ++ w_write |}
  end.

(** ** [generate_plot] *)

Record chart : Type := {
  plot_segment_id : pyval;
  plot_segment_name : string;
  df_to_plot : list (date * Z)
}.

(** [df_segment.index.min()] *)
Definition index_min (l : list frame_row) : option date :=
  match l with
  | [] => None
  | r :: l' => Some (fold_left (fun m x => Z.min m (date_ x)) l' (date_ r))
  end.

Definition point (r : frame_row) : date * Z := (date_ r, daily_attempts r).

Definition generate_plot (seg : pyval) (name : string) (fs : files)
  : option chart * list diag :=
  match master_csv fs with
  | None => (None, [PlotSkippedNoFile])
  | Some content =>
      match read_csv content with
      | EmptyDataError => (None, [PlotSkippedEmptyFile])
      | KeyError => (None, [PlotSkippedMissingColumn seg])
      | OtherException => (None, [ErrorGeneratingPlot seg])
      | Frame df_all =>
          match py_int seg with
          | Raise _ => (None, [ErrorGeneratingPlot seg])
          | Ok sid =>
              let df_segment := filter (matches sid) (rows df_all) in
              match df_segment with
              | [] => (None, [PlotSkippedNoData seg])
              | _ :: _ =>
                  if negb (has_daily_attempts df_all)
                  then (None, [PlotSkippedNoData seg])
                  else
                    let sorted := sort_by_date df_segment in
                    match index_min sorted with
                    | None => (None, [ErrorGeneratingPlot seg]) (* no row *)
                    | Some first_real_date =>
                        let zero_point_date := first_real_date - 1 in
                        (Some {| plot_segment_id := seg;
                                 plot_segment_name := name;
                                 df_to_plot :=
                                   (zero_point_date, 0) :: map point sorted |},
                         [])
                    end
              end
          end
      end
  end.

(** ** The main loop *)

(** The answer of the segment end point: the request fails with a
    [RequestException], or it returns a JSON object whose fields may be
    absent, or the call raises some other exception. The name of an answer
    that holds one is a string; an answer whose name is the JSON [null] is
    not part of this model. *)
Inductive response : Type :=
| RequestFailed
| Answer (name : option string) (efforts athletes : option pyval)
| OtherFailure.

Variable api : string -> response.

Definition default {A : Type} (o : option A) (d : A) : A :=
  match o with
  | Some a => a
  | None => d
  end.

Definition get_segment_data (segment_id_ : string)
  : result (option segment_data) :=
  match api segment_id_ with
  | Answer name efforts athletes =>
      Ok (Some {| seg_id := PyStr segment_id_;
                  seg_name := default name (String.append "Unknown Segment " segment_id_);
                  effort_count := default efforts (PyInt 0);
                  athlete_count := default athletes (PyInt 0) |})
  | RequestFailed => Ok None
  | OtherFailure => Raise ValueError
  end.

Record fetched : Type := {
  all_segment_data_current : list segment_data;
  processed_count : nat;
  error_count : nat;
  fetch_printed : list diag
}.

Definition fetch_step (st : fetched) (segment_id_ : string) : fetched :=
  match get_segment_data segment_id_ with
  | Ok (Some sd) =>
      {| all_segment_data_current := all_segment_data_current st ++ [sd];
         processed_count := S (processed_count st);
         error_count := error_count st;
         fetch_printed := fetch_printed st |}
  | Ok None =>
      {| all_segment_data_current := all_segment_data_current st;
         processed_count := processed_count st;
         error_count := S (error_count st);
         fetch_printed := fetch_printed st ++ [SkippingSegment segment_id_] |}
  | Raise _ =>
      {| all_segment_data_current := all_segment_data_current st;
         processed_count := processed_count st;
         error_count := S (error_count st);
         fetch_printed := fetch_printed st ++ [UnexpectedFetchError segment_id_] |}
  end.

Definition fetch_all (segment_ids_to_process : list string) : fetched :=
  fold_left fetch_step segment_ids_to_process
    {| all_segment_data_current := [];
       processed_count := 0;
       error_count := 0;
       fetch_printed := [] |}.

(** The update loop; the [k]-th call reads the date [clock k]. An exception
    that escapes [update_master_log] ends the loop and the run. *)
Fixpoint update_all (clock : nat -> date) (k : nat) (l : list segment_data)
  (fs : files) : files * list diag * option exn :=
  match l with
  | [] => (fs, [], None)
  | sd :: l' =>
      match update_master_log (clock k) sd fs with
      | Ok o =>
          let '(fs', out, e) := update_all clock (S k) l' (files_after o) in
          (fs', printed o ++ out, e)
      | Raise e => (fs, [], Some e)
      end
  end.

Fixpoint plot_all (l : list segment_data) (fs : files)
  : list chart * list diag :=
  match l with
  | [] => ([], [])
  | sd :: l' =>
      let '(c, out) := generate_plot (seg_id sd) (seg_name sd) fs in
      let '(cs, outs) := plot_all l' fs in
      (match c with Some c' => c' :: cs | None => cs end, out ++ outs)
  end.

Record run : Type := {
  exit_status : Z;
  files_end : files;
  charts : list chart;
  stdout : list diag
}.

Definition main (segment_ids_to_process : list string) (clock : nat -> date)
  (fs : files) : run :=
  let f := fetch_all segment_ids_to_process in
  match all_segment_data_current f with
  | [] =>
      {| exit_status := 0;
         files_end := fs;
         charts := [];
         stdout := fetch_printed f ++
                   [NoSegmentDataFetched;
                    Summary (processed_count f) (error_count f)] |}
  | _ :: _ =>
      match update_all clock 0 (all_segment_data_current f) fs with
      | (fs', out, Some _) =>
          {| exit_status := 1;
             files_end := fs';
             charts := [];
             stdout := fetch_printed f ++ out |}
      | (fs', out, None) =>
          let '(cs, out_plots) := plot_all (all_segment_data_current f) fs' in
          {| exit_status := 0;
             files_end := fs';
             charts := cs;
             stdout := fetch_printed f ++ out ++ out_plots ++
                       [Summary (processed_count f) (error_count f)] |}
      end
  end.

End Tracker.

(** ** [load_config] *)

(** The four environment variables, [None] when unset. *)
Record environ : Type := {
  STRAVA_CLIENT_ID : option string;
  STRAVA_CLIENT_SECRET : option string;
  STRAVA_REFRESH_TOKEN : option string;
  STRAVA_SEGMENT_IDS : option string
}.

(** [config.ini]: absent; or reading it or looking a value up raises; or
    it parses, with the options of its [Strava] section when there is one. *)
Inductive config_file : Type :=
| NoConfigFile
| ConfigRaises
| ConfigParsed (strava : option (string -> option string)).

(** The reasons for which [load_config] calls [sys.exit(1)]. *)
Inductive config_error : Type :=
| SectionMissing
| KeysMissing (missing : list string)
| ErrorReadingFile
| ConfigurationNotFound
| NoSegmentIds.

(** The dictionary that [load_config] returns. *)
Record app_config : Type := {
  client_id : string;
  client_secret : string;
  refresh_token : string;
  segment_id_list : list string
}.

(** [s.split(sep)] for a separator of one character. *)
Fixpoint split_on (sep : ascii) (s : list ascii) : list (list ascii) :=
  match s with
  | [] => [[]]
  | c :: s' =>
      if Ascii.eqb c sep then [] :: split_on sep s'
      else
        match split_on sep s' with
        | w :: ws => (c :: w) :: ws
        | [] => [[c]]
        end
  end.

Definition nonempty (l : list ascii) : bool :=
  match l with
  | [] => false
  | _ :: _ => true
  end.

(** [[s_id.strip() for s_id in raw.split(',') if s_id.strip()]] *)
Definition parse_segment_ids (segment_ids_raw : string) : list string :=
  map string_of_list_ascii
    (filter nonempty
       (map strip (split_on ","%char (list_ascii_of_string segment_ids_raw)))).

(** Truth value of an environment variable: set, and not empty. *)
Definition is_set (v : option string) : bool :=
  match v with
  | Some s => negb (String.eqb s EmptyString)
  | None => false
  end.

Definition required_keys : list string :=
  ["client_id"; "client_secret"; "refresh_token"; "segment_ids"].

Definition has_key (section : string -> option string) (key : string) : bool :=
  match section key with
  | Some _ => true
  | None => false
  end.

(** The values of the environment, when all four variables are set. *)
Definition from_environment (env : environ)
  : option (string * string * string * string) :=
  if is_set (STRAVA_CLIENT_ID env) && is_set (STRAVA_CLIENT_SECRET env)
     && is_set (STRAVA_REFRESH_TOKEN env) && is_set (STRAVA_SEGMENT_IDS env)
  then
    match STRAVA_CLIENT_ID env, STRAVA_CLIENT_SECRET env,
          STRAVA_REFRESH_TOKEN env, STRAVA_SEGMENT_IDS env with
    | Some cid, Some secret, Some token, Some ids =>
        Some (cid, secret, token, ids)
    | _, _, _, _ => None
    end
  else None.

(** The values of [config.ini]: the [Strava] section must be there and hold
    the four required keys. *)
Definition from_file (file : config_file)
  : config_error + (string * string * string * string) :=
  match file with
  | NoConfigFile => inl ConfigurationNotFound
  | ConfigRaises => inl ErrorReadingFile
  | ConfigParsed None => inl SectionMissing
  | ConfigParsed (Some section) =>
      match section "client_id", section "client_secret",
            section "refresh_token", section "segment_ids" with
      | Some a, Some b, Some c, Some d => inr (a, b, c, d)
      | _, _, _, _ =>
          inl (KeysMissing
                 (filter (fun key => negb (has_key section key))
                    required_keys))
      end
  end.

(** The first part of [load_config]: the environment first, the file when a
    variable is unset or empty. *)
Definition config_source (env : environ) (file : config_file)
  : config_error + (string * string * string * string) :=
  match from_environment env with
  | Some values => inr values
  | None => from_file file
  end.

Definition load_config (env : environ) (file : config_file)
  : config_error + app_config :=
  match config_source env file with
  | inl e => inl e
  | inr (cid, secret, token, segment_ids_raw) =>
      match parse_segment_ids segment_ids_raw with
      | [] => inl NoSegmentIds
      | parsed_segment_ids =>
          inr {| client_id := cid;
                 client_secret := secret;
                 refresh_token := token;
                 segment_id_list := parsed_segment_ids |}
      end
  end.

(** ** [refresh_access_token] and the start of the program *)

(** The answer of the token end point: the request fails, or it returns a
    JSON object that may lack the [access_token] field. *)
Inductive token_answer : Type :=
| TokenRequestFailed
| TokenReply (access_token : option string).

(** How a step that may end the process comes out: it returns, it calls
    [sys.exit], or an exception escapes to the top level. *)
Inductive started (A : Type) : Type :=
| Proceed (a : A)
| SystemExit (code : Z)
| Traceback.
Arguments SystemExit {A} code.
Arguments Traceback {A}.

(** [auth] stands for the token end point, asked with the client id, the
    client secret and the refresh token. A failed request exits with status
    1; a reply without the field raises a [KeyError] that nothing catches. *)
Definition refresh_access_token
  (auth : string -> string -> string -> token_answer) (c : app_config)
  : started string :=
  match auth (client_id c) (client_secret c) (refresh_token c) with
  | TokenReply (Some token) => Proceed token
  | TokenReply None => Traceback
  | TokenRequestFailed => SystemExit 1
  end.

(** [', '.join(segment_ids_to_process)], printed before the fetch loop. *)
Fixpoint join_ids (ids : list string) : string :=
  match ids with
  | [] => EmptyString
  | [s] => s
  | s :: rest => String.append s (String.append ", " (join_ids rest))
  end.

(** How the program ends: in [load_config], in [refresh_access_token], or
    after the loops of [main]. *)
Inductive program_end : Type :=
| StoppedAtConfig (e : config_error)
| StoppedAtToken
| Ran (found : string) (r : run).

(** The whole of [__main__]; [api] is the segment end point asked with the
    bearer token. *)
Definition tracker (env : environ) (file : config_file)
  (auth : string -> string -> string -> token_answer)
  (pandas : list line -> read_result)
  (api : string -> string -> response) (clock : nat -> date) (fs : files)
  : program_end :=
  match load_config env file with
  | inl e => StoppedAtConfig e
  | inr c =>
      match refresh_access_token auth c with
      | Proceed token =>
          Ran (join_ids (segment_id_list c))
              (main pandas (api token) (segment_id_list c) clock fs)
      | _ => StoppedAtToken
      end
  end.

(** The exit status of the process, and the log file it leaves. *)
Definition status (e : program_end) : Z :=
  match e with
  | Ran _ r => exit_status r
  | _ => 1
  end.

Definition log_left (fs : files) (e : program_end) : files :=
  match e with
  | Ran _ r => files_end r
  | _ => fs
  end.

(** ** The text of a row *)

Definition dquote : ascii := ascii_of_nat 34.

(** [segment_name.replace(dquote, dquote + dquote)] *)
Fixpoint escape_quotes (l : list ascii) : list ascii :=
  match l with
  | [] => []
  | c :: l' =>
      if Ascii.eqb c dquote then dquote :: dquote :: escape_quotes l'
      else c :: escape_quotes l'
  end.

(** [quoted_segment_name]: the escaped name between two quotes. *)
Definition quoted_segment_name (name : string) : string :=
  string_of_list_ascii
    (dquote :: escape_quotes (list_ascii_of_string name) ++ [dquote]).

(** ** Notions used to state the properties *)

(** The rows of [update_master_log] held by some lines. *)
Fixpoint records (ls : list line) : list data_row :=
  match ls with
  | [] => []
  | Data r :: ls' => r :: records ls'
  | Text _ :: ls' => records ls'
  end.

(** The prior records a call sees: the rows of the frame it reads, none when
    the file is absent, of size zero, or cannot be read. *)
Definition log_rows (pandas : list line -> read_result) (fs : files)
  : list frame_row :=
  match master_csv fs with
  | Some content =>
      match read_csv pandas content with
      | Frame df => rows df
      | _ => []
      end
  | None => []
  end.

(** A snapshot whose fields convert: the identifier to [sid], the counters
    to [total] and [athletes]. *)
Definition converts (sd : segment_data) (sid total athletes : Z) : Prop :=
  py_int (seg_id sd) = Ok sid /\
  py_int (or_zero (effort_count sd)) = Ok total /\
  py_int (or_zero (athlete_count sd)) = Ok athletes.

(** The row is the last line of the file. *)
Definition persisted (fs : files) (row : data_row) : Prop :=
  exists before, master_csv fs = Some (before ++ [Data row]).

(** A read that makes [update_master_log] keep the file and append. *)
Definition keeps_rows (r : read_result) : bool :=
  match r with
  | KeyError => true
  | Frame df => match rows df with [] => false | _ :: _ => true end
  | _ => false
  end.

Definition date_le (a b : frame_row) : Prop := date_ a <= date_ b.

(** The identifiers whose fetch succeeds, in the order of the configuration. *)
Definition answered (api : string -> response) (s : string) : bool :=
  match api s with
  | Answer _ _ _ => true
  | _ => false
  end.

(** The delta rule in its unclamped reading: with a baseline row of total
    [t], the new row carries the plain difference. *)
Definition plain_delta (pandas : list line -> read_result) (today : date)
  (sd : segment_data) (fs : files) : Prop :=
  forall sid total athletes content df e t,
    converts sd sid total athletes ->
    master_csv fs = Some content ->
    read_csv pandas content = Frame df ->
    last_entry sid df = Some e ->
    has_total_attempts_on_date df = true ->
    py_int (total_attempts_on_date e) = Ok t ->
    exists o row,
      update_master_log pandas today sd fs = Ok o /\
      new_data_row o = Some row /\
      daily_attempts_int row = total - t /\
      current_total_attempts row = total /\
      current_athlete_count row = athletes.

(** The snapshots of the identifiers whose fetch succeeds, in the order of
    the configuration. *)
Definition fetched_data (api : string -> response) (ids : list string)
  : list segment_data :=
  flat_map (fun s => match get_segment_data api s with
                     | Ok (Some sd) => [sd]
                     | _ => []
                     end) ids.

Definition failed (api : string -> response) (s : string) : bool :=
  negb (answered api s).

(** A snapshot whose identifier and counters convert. *)
Definition convertible (sd : segment_data) : Prop :=
  exists sid total athletes, converts sd sid total athletes.

(** The lines a write starts from: the header when there are none. *)
Definition with_header (ls : list line) : list line :=
  match ls with
  | [] => [Text header]
  | _ :: _ => ls
  end.

(** Contents that a call extends: nothing, the header alone, or lines whose
    read keeps the file. *)
Definition appends (pandas : list line -> read_result) (content : list line)
  : Prop :=
  content = [] \/ content = [Text header] \/
  keeps_rows (read_csv pandas content) = true.

(** Every call of a run finds contents that it extends. *)
Fixpoint each_call_appends (pandas : list line -> read_result)
  (clock : nat -> date) (k : nat) (l : list segment_data) (fs : files)
  : Prop :=
  match l with
  | [] => True
  | sd :: l' =>
      appends pandas (lines fs) /\
      match update_master_log pandas (clock k) sd fs with
      | Ok o => each_call_appends pandas clock (S k) l' (files_after o)
      | Raise _ => True
      end
  end.

(** A snapshot whose identifier and counters convert to values that are
    read back as written. *)
Definition in_range (sd : segment_data) : Prop :=
  exists sid total athletes,
    converts sd sid total athletes /\
    int64 sid = true /\ counter total = true /\ counter athletes = true.



(** A snapshot for which [generate_plot] makes a chart from the log. *)
Definition charted (pandas : list line -> read_result) (fs : files)
  (sd : segment_data) : bool :=
  match fst (generate_plot pandas (seg_id sd) (seg_name sd) fs) with
  | Some _ => true
  | None => false
  end.

(** A snapshot on which [update_master_log] raises nothing: its identifier
    does not convert, or its counters do. *)
Definition never_raises (sd : segment_data) : Prop :=
  (exists e, py_int (seg_id sd) = Raise e) \/ convertible sd.

(** The daily attempts of successive totals of one segment: 0 for the first,
    then the growth since the total before, never below 0. *)
Fixpoint daily_series (last : option Z) (totals : list Z) : list Z :=
  match totals with
  | [] => []
  | t :: ts =>
      match last with
      | None => 0
      | Some p => Z.max 0 (t - p)
      end :: daily_series (Some t) ts
  end.

(** An identifier as the fetch loop expects it: not empty, without a comma,
    without white space at either end. *)
Definition clean_id (s : string) : Prop :=
  s <> EmptyString /\
  ~ In ","%char (list_ascii_of_string s) /\
  strip (list_ascii_of_string s) = list_ascii_of_string s.

(** A character that separates identifiers or is dropped around them. *)
Definition separator (c : ascii) : bool :=
  Ascii.eqb c ","%char || is_space c.

(** The rows of a frame that belong to a segment, in file order. *)
Definition rows_of_segment (sid : Z) (df : data_frame) : list frame_row :=
  filter (matches sid) (rows df).

(** What a log in the program's format knows of a segment before a given
    day: nothing, or a latest row, dated before that day, with total [p]. *)
Definition baseline_is (sid : Z) (last : option Z) (before : date)
  (rs : list data_row) : Prop :=
  match last with
  | None => Forall (fun r => segment_id_int r <> sid) rs
  | Some p =>
      exists e,
        In e rs /\ segment_id_int e = sid /\
        current_total_attempts e = p /\ today_str e < before /\
        forall r, In r rs -> segment_id_int r = sid ->
                  r = e \/ today_str r < today_str e
  end.

(** The log is absent or empty (and holds no rows), or it is the header
    followed by the rows [rs]. *)
Definition holds_rows (fs : files) (rs : list data_row) : Prop :=
  lines fs = [] /\ rs = [] \/ lines fs = Text header :: map Data rs.

Definition sum_list (l : list Z) : Z := fold_right Z.add 0 l.

(** One total after the other, none below the one before: [p], then the
    totals. *)
Fixpoint never_decrease (p : Z) (totals : list Z) : Prop :=
  match totals with
  | [] => True
  | t :: ts => p <= t /\ never_decrease t ts
  end.

(** A snapshot whose identifier converts and one of whose counters does
    not: [update_master_log] raises [e] on it. *)
Definition bad_counter (sd : segment_data) (e : exn) : Prop :=
  (exists sid, py_int (seg_id sd) = Ok sid) /\
  (py_int (or_zero (effort_count sd)) = Raise e \/
   (exists total, py_int (or_zero (effort_count sd)) = Ok total) /\
   py_int (or_zero (athlete_count sd)) = Raise e).

(** A counter that is absent from the answer, or falsy in it. *)
Definition no_count (v : option pyval) : Prop :=
  forall x, v = Some x -> truthy x = false.

(** Reading a quoted field back: two quotes in a row stand for one. *)
Fixpoint unescape_quotes (l : list ascii) : list ascii :=
  match l with
  | c :: ((d :: l') as rest) =>
      if Ascii.eqb c dquote && Ascii.eqb d dquote
      then dquote :: unescape_quotes l'
      else c :: unescape_quotes rest
  | _ => l
  end.

(** ** Sample inputs *)

(** Day numbers of 2024-01-01 and the following days. *)
Definition jan1 : date := 738886.
Definition jan2 : date := 738887.
Definition jan3 : date := 738888.
Definition jan4 : date := 738889.

(** A reader that fails on every file not in the program's format. *)
Definition unreadable : list line -> read_result := fun _ => OtherException.

(** A reader that finds no [segment_id] column in such files. *)
Definition no_id_column : list line -> read_result := fun _ => KeyError.

Definition snapshot (sid : string) (total : Z) : segment_data :=
  {| seg_id := PyStr sid;
     seg_name := "Col";
     effort_count := PyInt total;
     athlete_count := PyInt 7 |}.

Definition logged (sid : Z) (d : date) (total daily : Z) : data_row :=
  {| segment_id_int := sid;
     segment_name := "Col";
     today_str := d;
     current_total_attempts := total;
     daily_attempts_int := daily;
     current_athlete_count := 7 |}.

Definition log_with (rs : list data_row) : files :=
  {| master_csv := Some (Text header :: map Data rs); writable := true |}.

Definition no_log : files := {| master_csv := None; writable := true |}.

(** A log with one row and a line of seven fields after it. *)
Definition damaged_log : files :=
  {| master_csv :=
       Some [Text header; Data (logged 42 jan1 200 0);
             Text "42,x,2024-01-02,210,10,7,7"];
     writable := true |}.

(** An end point that fails for segment 2 and answers for the others. *)
Definition second_fails (s : string) : response :=
  if String.eqb s "2" then RequestFailed
  else Answer (Some "Col") (Some (PyInt 150)) (Some (PyInt 7)).


(** An environment with the four variables, one with the secret unset, and a
    [config.ini] whose [Strava] section holds the four keys. *)
Definition full_environ : environ :=
  {| STRAVA_CLIENT_ID := Some "1234";
     STRAVA_CLIENT_SECRET := Some "s3cret";
     STRAVA_REFRESH_TOKEN := Some "r3fresh";
     STRAVA_SEGMENT_IDS := Some " 229781, 7 ,,12 " |}.

Definition partial_environ : environ :=
  {| STRAVA_CLIENT_ID := Some "1234";
     STRAVA_CLIENT_SECRET := None;
     STRAVA_REFRESH_TOKEN := Some "r3fresh";
     STRAVA_SEGMENT_IDS := Some "229781" |}.

Definition empty_environ : environ :=
  {| STRAVA_CLIENT_ID := None;
     STRAVA_CLIENT_SECRET := None;
     STRAVA_REFRESH_TOKEN := None;
     STRAVA_SEGMENT_IDS := None |}.

Definition sample_section (key : string) : option string :=
  if String.eqb key "client_id" then Some "99"
  else if String.eqb key "client_secret" then Some "ini-secret"
  else if String.eqb key "refresh_token" then Some "ini-token"
  else if String.eqb key "segment_ids" then Some "5, 6"
  else None.

Definition sample_ini : config_file := ConfigParsed (Some sample_section).

(** A log whose header lacks the [segment_id] column, and the frame read
    from [log_without_total]: a row of segment 42 without a total. *)
Definition headless_log : files :=
  {| master_csv := Some [Text "name,date,total"; Text "Col,2024-01-01,200"];
     writable := true |}.

Definition frame_without_total : list line -> read_result :=
  fun _ => Frame {| has_total_attempts_on_date := false;
                    has_daily_attempts := true;
                    rows := [{| segment_id := Some 42;
                                date_ := jan1;
                                total_attempts_on_date := PyNone;
                                daily_attempts := 0 |}] |}.

Definition read_only (fs : files) : files :=
  {| master_csv := master_csv fs; writable := false |}.

(** A log whose header lacks the [total_attempts_on_date] column; it is read
    by [frame_without_total]. *)
Definition log_without_total : files :=
  {| master_csv := Some [Text "segment_id,date,daily_attempts";
                         Text "42,2024-01-01,0"];
     writable := true |}.

(** Two identifiers beyond [Int64], around the identifier 2 that
    [second_fails] refuses. *)
Definition beyond_int64 : list string :=
  ["9223372036854775808"; "2"; "9223372036854775809"].

(** A clock that moves on by one day at each call. *)
Definition day_after_day (k : nat) : date := jan1 + Z.of_nat k.

(** An end point that fails for every segment, one whose answer for
    segment 2 has a counter that is not a number, and one whose answers hold
    no field at all. *)
Definition all_fail (s : string) : response := RequestFailed.

Definition second_garbled (s : string) : response :=
  if String.eqb s "2" then Answer (Some "Col") (Some (PyStr "n/a")) None
  else Answer (Some "Col") (Some (PyInt 150)) (Some (PyInt 7)).

Definition bare_answers (s : string) : response := Answer None None None.

(** A token end point that grants the token [tok]. *)
Definition grants (tok : string) (cid secret refresh : string) : token_answer :=
  TokenReply (Some tok).

(** * Properties *)

(** ** [int()] on sample strings *)

Example int_of_string_plain : int_of_string "229781" = Some 229781.
Proof. reflexivity. Qed.

Example int_of_string_signed : int_of_string " -12_0 " = Some (-120).
Proof. reflexivity. Qed.

Example int_of_string_letters : int_of_string "12a4" = None.
Proof. reflexivity. Qed.

Example int_of_string_trailing_underscore : int_of_string "12_" = None.
Proof. reflexivity. Qed.

Example int_of_string_empty : int_of_string EmptyString = None.
Proof. reflexivity. Qed.

(** ** Sorting by date *)

Lemma insert_by_date_perm (r : frame_row) (l : list frame_row) :
  Permutation (insert_by_date r l) (r :: l).
Proof.
  induction l as [|x l IH]; simpl.
  - apply Permutation_refl.
  - destruct (date_ r <=? date_ x).
    + apply Permutation_refl.
    + eapply perm_trans; [apply perm_skip, IH | apply perm_swap].
Qed.

Lemma sort_by_date_perm (l : list frame_row) :
  Permutation (sort_by_date l) l.
Proof.
  induction l as [|x l IH]; simpl.
  - constructor.
  - eapply perm_trans; [apply insert_by_date_perm | now apply perm_skip].
Qed.

Lemma insert_by_date_sorted (r : frame_row) (l : list frame_row) :
  StronglySorted date_le l -> StronglySorted date_le (insert_by_date r l).
Proof.
  induction 1 as [|x l Hs IH Hx]; simpl.
  - repeat constructor.
  - destruct (date_ r <=? date_ x) eqn:E.
    + apply Z.leb_le in E. constructor.
      * now constructor.
      * constructor; [exact E|].
        eapply Forall_impl; [|exact Hx].
        unfold date_le. intros a Ha. lia.
    + apply Z.leb_gt in E. constructor; [exact IH|].
      eapply Permutation_Forall.
      * apply Permutation_sym, insert_by_date_perm.
      * constructor; [unfold date_le; lia | exact Hx].
Qed.

Lemma sort_by_date_sorted (l : list frame_row) :
  StronglySorted date_le (sort_by_date l).
Proof.
  induction l as [|x l IH]; simpl.
  - constructor.
  - now apply insert_by_date_sorted.
Qed.

Lemma iloc_last_snoc (l : list frame_row) (e : frame_row) :
  iloc_last l = Some e -> exists l', l = l' ++ [e].
Proof.
  induction l as [|x l IH]; simpl; [discriminate|].
  destruct l as [|y l].
  - intros [= ->]. now exists [].
  - intros H. destruct (IH H) as [l' ->]. now exists (x :: l').
Qed.

Lemma iloc_last_nonempty (x : frame_row) (l : list frame_row) :
  exists e, iloc_last (x :: l) = Some e.
Proof.
  revert x. induction l as [|y l IH]; intros x.
  - now exists x.
  - destruct (IH y) as [e He]. exists e. exact He.
Qed.

Lemma sorted_snoc_max (l : list frame_row) (e : frame_row) :
  StronglySorted date_le (l ++ [e]) ->
  forall x, In x (l ++ [e]) -> date_ x <= date_ e.
Proof.
  induction l as [|y l IH]; simpl; intros Hs x Hx.
  - destruct Hx as [<-|[]]. lia.
  - inversion Hs as [|? ? Hs' Hall]; subst.
    destruct Hx as [<-|Hx].
    + rewrite Forall_forall in Hall. apply Hall.
      apply in_or_app. right. now left.
    + now apply IH.
Qed.

(** The baseline row has the greatest date among the rows of its segment. *)
Lemma last_entry_greatest (sid : Z) (df : data_frame) (e : frame_row) :
  last_entry sid df = Some e ->
  In e (rows df) /\ matches sid e = true /\
  forall r, In r (rows df) -> matches sid r = true -> date_ r <= date_ e.
Proof.
  unfold last_entry, segment_df. intros H.
  destruct (iloc_last_snoc _ H) as [l' Hl'].
  assert (Hin : forall x, In x (l' ++ [e]) <->
                          In x (filter (matches sid) (rows df))).
  { intros x. rewrite <- Hl'. split; apply Permutation_in.
    - apply sort_by_date_perm.
    - apply Permutation_sym, sort_by_date_perm. }
  assert (He : In e (filter (matches sid) (rows df))).
  { apply Hin, in_or_app. right. now left. }
  apply filter_In in He. destruct He as [He1 He2].
  repeat split; try assumption.
  intros r Hr Hm. apply sorted_snoc_max with (l := l').
  - rewrite <- Hl'. apply sort_by_date_sorted.
  - apply Hin, filter_In. now split.
Qed.

Lemma last_entry_exists (sid : Z) (df : data_frame) (r : frame_row) :
  In r (rows df) -> matches sid r = true ->
  exists e, last_entry sid df = Some e.
Proof.
  intros Hr Hm. unfold last_entry, segment_df.
  destruct (sort_by_date (filter (matches sid) (rows df))) as [|x l] eqn:E.
  - assert (Hin : In r (filter (matches sid) (rows df)))
      by (apply filter_In; now split).
    apply (Permutation_in _ (Permutation_sym (sort_by_date_perm _))) in Hin.
    rewrite E in Hin. destruct Hin.
  - apply iloc_last_nonempty.
Qed.

Lemma last_entry_absent (sid : Z) (df : data_frame) :
  (forall r, In r (rows df) -> matches sid r = false) ->
  last_entry sid df = None.
Proof.
  intros H. destruct (last_entry sid df) as [e|] eqn:E; [|reflexivity].
  apply last_entry_greatest in E. destruct E as (Hin & Hm & _).
  rewrite (H e Hin) in Hm. discriminate.
Qed.

(** ** One call of [update_master_log] *)

Section OneCall.

Variable pandas : list line -> read_result.

(** A call whose snapshot converts returns, and its result is read off the
    history. *)
Lemma update_master_log_converts (today : date) (sd : segment_data)
  (fs : files) (sid total athletes : Z) :
  converts sd sid total athletes ->
  let h := history_of pandas sid fs in
  let d := compute_daily_attempts sid total h in
  let row := {| segment_id_int := sid;
                segment_name := seg_name sd;
                today_str := today;
                current_total_attempts := total;
                daily_attempts_int := fst d;
                current_athlete_count := athletes |} in
  let w := write_row fs (file_is_empty h || negb (file_exists fs)) row in
  update_master_log pandas today sd fs =
  Ok {| files_after := fst w;
        new_data_row := Some row;
        printed := warnings h ++ snd d ++ snd w |}.
Proof.
  intros (Hid & Htot & Hath). unfold update_master_log.
  rewrite Hid, Htot, Hath. simpl.
  destruct (compute_daily_attempts sid total (history_of pandas sid fs))
    as [daily w_daily]. simpl.
  destruct (write_row _ _ _) as [fs' w_write]. reflexivity.
Qed.

Lemma read_csv_frame_nonempty (content : list line) (df : data_frame) :
  read_csv pandas content = Frame df -> content <> [].
Proof. destruct content; [discriminate | discriminate]. Qed.

(** The history when the frame holds a baseline row whose total converts. *)
Lemma history_of_baseline (sid : Z) (fs : files) (content : list line)
  (df : data_frame) (e : frame_row) (t : Z) :
  master_csv fs = Some content ->
  read_csv pandas content = Frame df ->
  last_entry sid df = Some e ->
  has_total_attempts_on_date df = true ->
  py_int (total_attempts_on_date e) = Ok t ->
  history_of pandas sid fs = previous_entry e t [].
Proof.
  intros Hfs Hread Hlast Hcol Ht. unfold history_of. rewrite Hfs.
  destruct content as [|l ls]; [discriminate|].
  unfold read_history. rewrite Hread.
  destruct (rows df) as [|r rs] eqn:Hrows.
  - unfold last_entry, segment_df in Hlast. rewrite Hrows in Hlast.
    discriminate.
  - rewrite Hlast, Hcol, Ht.
    destruct (total_attempts_on_date e); [discriminate | reflexivity..].
Qed.

(** Without a prior record of the segment the call is a first entry. *)
Lemma history_of_first (sid : Z) (fs : files) :
  (forall r, In r (log_rows pandas fs) -> matches sid r = false) ->
  is_first_entry_for_segment (history_of pandas sid fs) = true.
Proof.
  unfold log_rows, history_of. intros H.
  destruct (master_csv fs) as [[|l ls]|]; try reflexivity.
  unfold read_history.
  destruct (read_csv pandas (l :: ls)) as [| | |df]; try reflexivity.
  destruct (rows df) as [|r rs] eqn:Hrows; [reflexivity|].
  rewrite last_entry_absent; [reflexivity|].
  rewrite Hrows. exact H.
Qed.

(** A read that fails leaves a first entry. *)
Lemma history_of_failed_read (sid : Z) (fs : files) (content : list line) :
  master_csv fs = Some content ->
  (forall df, read_csv pandas content <> Frame df) ->
  is_first_entry_for_segment (history_of pandas sid fs) = true.
Proof.
  intros Hfs Hread. unfold history_of. rewrite Hfs.
  destruct content as [|l ls]; [reflexivity|].
  unfold read_history.
  destruct (read_csv pandas (l :: ls)) as [| | |df] eqn:E; try reflexivity.
  now destruct (Hread df).
Qed.

Lemma compute_daily_attempts_first (sid total : Z) (h : history) :
  is_first_entry_for_segment h = true ->
  compute_daily_attempts sid total h = (0, []).
Proof. unfold compute_daily_attempts. now intros ->. Qed.

Lemma compute_daily_attempts_nonneg (sid total : Z) (h : history) :
  0 <= fst (compute_daily_attempts sid total h).
Proof.
  unfold compute_daily_attempts.
  destruct (is_first_entry_for_segment h); simpl; [lia|].
  destruct (total - last_total_attempts h <? 0) eqn:E; simpl; [lia|].
  apply Z.ltb_ge in E. exact E.
Qed.

Lemma compute_daily_attempts_previous (sid total t : Z) (e : frame_row) :
  fst (compute_daily_attempts sid total (previous_entry e t [])) =
  Z.max 0 (total - t).
Proof.
  unfold compute_daily_attempts. simpl.
  destruct (total - t <? 0) eqn:E; simpl.
  - apply Z.ltb_lt in E. lia.
  - apply Z.ltb_ge in E. lia.
Qed.

(** A write that succeeds leaves the row as the last line. *)
Lemma write_row_persisted (fs : files) (b : bool) (row : data_row) :
  writable fs = true -> persisted (fst (write_row fs b row)) row.
Proof.
  intros Hw. unfold write_row, persisted. rewrite Hw. simpl.
  destruct b.
  - now exists [Text header].
  - now exists (lines fs).
Qed.

Lemma write_row_writable (fs : files) (b : bool) (row : data_row) :
  writable (fst (write_row fs b row)) = writable fs.
Proof.
  unfold write_row. destruct (writable fs) eqn:E; simpl; [reflexivity | exact E].
Qed.

(** Every row that a call computes has daily attempts of zero or more. *)
Lemma update_master_log_nonneg (today : date) (sd : segment_data) (fs : files)
  (o : outcome) (row : data_row) :
  update_master_log pandas today sd fs = Ok o ->
  new_data_row o = Some row ->
  0 <= daily_attempts_int row.
Proof.
  unfold update_master_log.
  destruct (py_int (seg_id sd)) as [sid|]; [|intros [= <-]; discriminate].
  destruct (py_int (or_zero (effort_count sd))) as [total|]; [|discriminate].
  destruct (py_int (or_zero (athlete_count sd))) as [athletes|];
    [|discriminate].
  simpl.
  pose proof (compute_daily_attempts_nonneg sid total (history_of pandas sid fs))
    as Hd.
  destruct (compute_daily_attempts sid total (history_of pandas sid fs))
    as [daily w_daily].
  destruct (write_row _ _ _) as [fs' w_write].
  intros [= <-]. simpl. intros [= <-]. exact Hd.
Qed.

End OneCall.

Lemma matches_iff (sid : Z) (r : frame_row) :
  matches sid r = true <-> segment_id r = Some sid.
Proof.
  unfold matches. destruct (segment_id r) as [z|].
  - rewrite Z.eqb_eq. split; [now intros -> | now intros [= ->]].
  - split; discriminate.
Qed.

Lemma matches_false (sid : Z) (r : frame_row) :
  segment_id r <> Some sid -> matches sid r = false.
Proof.
  intros H. destruct (matches sid r) eqn:E; [|reflexivity].
  apply matches_iff in E. contradiction.
Qed.

(** An exception of the counters' conversion escapes the call. *)
Lemma update_master_log_raises (pandas : list line -> read_result)
  (today : date) (sd : segment_data) (fs : files) (sid : Z) (e : exn) :
  py_int (seg_id sd) = Ok sid ->
  py_int (or_zero (effort_count sd)) = Raise e ->
  update_master_log pandas today sd fs = Raise e.
Proof. intros Hid He. unfold update_master_log. now rewrite Hid, He. Qed.

(** A write that fails is reported and leaves the files as they were. *)
Lemma write_row_unwritable (fs : files) (b : bool) (row : data_row) :
  writable fs = false -> write_row fs b row = (fs, [CouldNotWrite]).
Proof. intros H. unfold write_row. now rewrite H. Qed.

(** ** The rules of the accumulator *)

(** C1, first-observation rule: when the log a call reads holds no record of
    the snapshot's segment, the call returns a new row whose daily attempts
    are 0, whatever the snapshot's cumulative count; the row carries the
    snapshot's identifier and count, and is the last line of the file when
    the write succeeds. *)
Theorem first_observation_rule (pandas : list line -> read_result)
  (today : date) (sd : segment_data) (fs : files) (sid total athletes : Z) :
  converts sd sid total athletes ->
  (forall r, In r (log_rows pandas fs) -> segment_id r <> Some sid) ->
  exists o row,
    update_master_log pandas today sd fs = Ok o /\
    new_data_row o = Some row /\
    daily_attempts_int row = 0 /\
    segment_id_int row = sid /\
    current_total_attempts row = total /\
    (writable fs = true -> persisted (files_after o) row).
Proof.
  intros Hc Hnone.
  rewrite (update_master_log_converts pandas today fs Hc).
  eexists. eexists. split; [reflexivity|]. simpl.
  split; [reflexivity|].
  rewrite compute_daily_attempts_first.
  - repeat split. intros Hw. now apply write_row_persisted.
  - apply history_of_first. intros r Hr. apply matches_false. now apply Hnone.
Qed.

Lemma first_observation_rule_witness :
  exists o row,
    update_master_log unreadable jan2 (snapshot "42" 5000)
      (log_with [logged 7 jan1 310 0]) = Ok o /\
    new_data_row o = Some row /\
    daily_attempts_int row = 0 /\
    segment_id_int row = 42 /\
    current_total_attempts row = 5000 /\
    (writable (log_with [logged 7 jan1 310 0]) = true ->
     persisted (files_after o) row).
Proof.
  apply (@first_observation_rule unreadable jan2 (snapshot "42" 5000)
           (log_with [logged 7 jan1 310 0]) 42 5000 7).
  - repeat split.
  - simpl. intros r [<-|[]]. simpl. discriminate.
Defined.

(** C2, delta correctness as stated, at a snapshot below the baseline: the
    prior record has total 200, the snapshot 150, and the new row does not
    carry 150 - 200. *)
Lemma plain_delta_fails :
  ~ plain_delta unreadable jan2 (snapshot "42" 150)
      (log_with [logged 42 jan1 200 0]).
Proof.
  intros H.
  destruct (H 42 150 7 (Text header :: [Data (logged 42 jan1 200 0)])
              {| has_total_attempts_on_date := true;
                 has_daily_attempts := true;
                 rows := [frame_row_of (logged 42 jan1 200 0)] |}
              (frame_row_of (logged 42 jan1 200 0)) 200)
    as (o & row & Ho & Hrow & Hd & _); try reflexivity.
  - repeat split.
  - vm_compute in Ho. injection Ho as <-. simpl in Hrow.
    injection Hrow as <-. simpl in Hd. discriminate.
Qed.

(** C2, delta correctness, amended: with a baseline row (the last entry of
    the segment) whose total is [t], the new row's daily attempts are the
    snapshot's cumulative attempts minus [t] when that difference is not
    negative and 0 when it is; the row stores the snapshot's cumulative
    attempts and athlete count. *)
Theorem delta_correctness (pandas : list line -> read_result)
  (today : date) (sd : segment_data) (fs : files) (sid total athletes : Z)
  (content : list line) (df : data_frame) (e : frame_row) (t : Z) :
  converts sd sid total athletes ->
  master_csv fs = Some content ->
  read_csv pandas content = Frame df ->
  last_entry sid df = Some e ->
  has_total_attempts_on_date df = true ->
  py_int (total_attempts_on_date e) = Ok t ->
  exists o row,
    update_master_log pandas today sd fs = Ok o /\
    new_data_row o = Some row /\
    daily_attempts_int row = Z.max 0 (total - t) /\
    (t <= total -> daily_attempts_int row = total - t) /\
    current_total_attempts row = total /\
    current_athlete_count row = athletes.
Proof.
  intros Hc Hfs Hread Hlast Hcol Ht.
  rewrite (update_master_log_converts pandas today fs Hc).
  eexists. eexists. split; [reflexivity|]. simpl.
  split; [reflexivity|].
  rewrite (history_of_baseline pandas sid fs Hfs Hread Hlast Hcol Ht).
  rewrite compute_daily_attempts_previous.
  simpl. split; [reflexivity|]. split; [lia|]. split; reflexivity.
Qed.

Lemma delta_correctness_witness :
  exists o row,
    update_master_log unreadable jan2 (snapshot "42" 137)
      (log_with [logged 42 jan1 100 0]) = Ok o /\
    new_data_row o = Some row /\
    daily_attempts_int row = Z.max 0 (137 - 100) /\
    (100 <= 137 -> daily_attempts_int row = 137 - 100) /\
    current_total_attempts row = 137 /\
    current_athlete_count row = 7.
Proof.
  apply (@delta_correctness unreadable jan2 (snapshot "42" 137)
           (log_with [logged 42 jan1 100 0]) 42 137 7
           (Text header :: [Data (logged 42 jan1 100 0)])
           {| has_total_attempts_on_date := true;
              has_daily_attempts := true;
              rows := [frame_row_of (logged 42 jan1 100 0)] |}
           (frame_row_of (logged 42 jan1 100 0)) 100);
    try reflexivity.
  repeat split.
Defined.

(** When the records of the segment on its latest day agree on the total,
    the baseline carries that day and that total, in whatever order the frame
    holds the rows. *)
Lemma last_entry_latest (sid : Z) (df df' : data_frame) (e : frame_row) :
  In e (rows df) ->
  segment_id e = Some sid ->
  (forall r, In r (rows df) -> segment_id r = Some sid ->
             date_ r < date_ e \/
             (date_ r = date_ e /\
              total_attempts_on_date r = total_attempts_on_date e)) ->
  Permutation (rows df) (rows df') ->
  exists e',
    last_entry sid df' = Some e' /\
    date_ e' = date_ e /\
    total_attempts_on_date e' = total_attempts_on_date e.
Proof.
  intros Hin Hseg Hlate Hperm.
  assert (Hin' : In e (rows df')) by (eapply Permutation_in; eassumption).
  destruct (@last_entry_exists sid df' e Hin' (proj2 (matches_iff sid e) Hseg))
    as [e' He'].
  exists e'. split; [exact He'|].
  destruct (last_entry_greatest _ _ He') as (Hr & Hm & Hmax).
  apply Permutation_sym in Hperm.
  specialize (Hmax e Hin' (proj2 (matches_iff sid e) Hseg)).
  destruct (Hlate e' (Permutation_in _ Hperm Hr) (proj1 (matches_iff sid e') Hm))
    as [Hlt|[Hd Ht]]; [lia | now split].
Qed.

(** C3, most-recent-by-date selection: when a record of the segment carries
    the greatest date among the records of the segment (any other record of
    that date carrying the same total), the last total that the call uses is
    that record's total and the last date its date; the same holds for every
    file whose frame holds the same rows in another order, and nothing is
    asked of the dates in between. The new row's daily attempts are computed
    from that total. *)
Theorem most_recent_by_date (pandas : list line -> read_result) (sid : Z)
  (fs : files) (content : list line) (df : data_frame) (e : frame_row)
  (t : Z) :
  master_csv fs = Some content ->
  read_csv pandas content = Frame df ->
  has_total_attempts_on_date df = true ->
  In e (rows df) ->
  segment_id e = Some sid ->
  py_int (total_attempts_on_date e) = Ok t ->
  (forall r, In r (rows df) -> segment_id r = Some sid ->
             date_ r < date_ e \/
             (date_ r = date_ e /\
              total_attempts_on_date r = total_attempts_on_date e)) ->
  last_total_attempts (history_of pandas sid fs) = t /\
  last_date_str (history_of pandas sid fs) = Some (date_ e) /\
  (forall fs' content' df',
      master_csv fs' = Some content' ->
      read_csv pandas content' = Frame df' ->
      has_total_attempts_on_date df' = true ->
      Permutation (rows df) (rows df') ->
      last_total_attempts (history_of pandas sid fs') = t) /\
  (forall today sd total athletes,
      converts sd sid total athletes ->
      exists o row,
        update_master_log pandas today sd fs = Ok o /\
        new_data_row o = Some row /\
        daily_attempts_int row = Z.max 0 (total - t)).
Proof.
  intros Hfs Hread Hcol Hin Hseg Ht Hlate.
  destruct (@last_entry_latest sid df df e Hin Hseg Hlate (Permutation_refl _))
    as (e0 & Hlast & Hd0 & Ht0).
  rewrite <- Ht0 in Ht.
  pose proof (history_of_baseline pandas sid fs Hfs Hread Hlast Hcol Ht) as Hh.
  split; [now rewrite Hh|]. split; [rewrite Hh; simpl; now rewrite Hd0|].
  split.
  - intros fs' content' df' Hfs' Hread' Hcol' Hperm.
    destruct (@last_entry_latest sid df df' e Hin Hseg Hlate Hperm)
      as (e' & Hlast' & _ & Ht').
    rewrite Ht0, <- Ht' in Ht.
    now rewrite (history_of_baseline pandas sid fs' Hfs' Hread' Hlast' Hcol' Ht).
  - intros today sd total athletes Hc.
    rewrite (update_master_log_converts pandas today fs Hc).
    eexists. eexists. split; [reflexivity|]. split; [reflexivity|]. simpl.
    rewrite Hh. apply compute_daily_attempts_previous.
Qed.

Lemma most_recent_by_date_witness :
  let fs := log_with [logged 42 jan3 25 15; logged 7 jan2 3 0;
                      logged 42 jan1 10 0] in
  last_total_attempts (history_of unreadable 42 fs) = 25 /\
  last_total_attempts
    (history_of unreadable 42
       (log_with [logged 42 jan1 10 0; logged 7 jan2 3 0;
                  logged 42 jan3 25 15])) = 25.
Proof.
  intros fs.
  destruct (@most_recent_by_date unreadable 42 fs
              (Text header :: map Data [logged 42 jan3 25 15; logged 7 jan2 3 0;
                                        logged 42 jan1 10 0])
              {| has_total_attempts_on_date := true;
                 has_daily_attempts := true;
                 rows := map frame_row_of
                           [logged 42 jan3 25 15; logged 7 jan2 3 0;
                            logged 42 jan1 10 0] |}
              (frame_row_of (logged 42 jan3 25 15)) 25)
    as (H1 & _ & H2 & _); try reflexivity.
  - simpl. now left.
  - simpl. intros r [<-|[<-|[<-|[]]]]; simpl; intros Hs.
    + right. now split.
    + discriminate.
    + left. reflexivity.
  - split; [exact H1|].
    apply (H2 _ (Text header :: map Data [logged 42 jan1 10 0;
                                          logged 7 jan2 3 0;
                                          logged 42 jan3 25 15])
              {| has_total_attempts_on_date := true;
                 has_daily_attempts := true;
                 rows := map frame_row_of
                           [logged 42 jan1 10 0; logged 7 jan2 3 0;
                            logged 42 jan3 25 15] |}); try reflexivity.
    simpl.
    apply Permutation_trans with
      (frame_row_of (logged 7 jan2 3 0) :: frame_row_of (logged 42 jan3 25 15)
         :: [frame_row_of (logged 42 jan1 10 0)]).
    + apply perm_swap.
    + apply Permutation_trans with
        (frame_row_of (logged 7 jan2 3 0) :: frame_row_of (logged 42 jan1 10 0)
           :: [frame_row_of (logged 42 jan3 25 15)]).
      * apply perm_skip, perm_swap.
      * apply perm_swap.
Defined.

(** Two records of the segment on the same latest day, with the tie order of
    [sort_by_date]: the baseline is the one that comes later in the file, so
    it changes with the order. *)
Example same_day_records_follow_file_order :
  last_total_attempts
    (history_of unreadable 42
       (log_with [logged 42 jan1 10 0; logged 42 jan1 25 15])) = 25 /\
  last_total_attempts
    (history_of unreadable 42
       (log_with [logged 42 jan1 25 15; logged 42 jan1 10 0])) = 10.
Proof. split; reflexivity. Qed.

(** C4, negative-delta clamp: no call computes a row with negative daily
    attempts; and when the snapshot's cumulative attempts are below the
    baseline row's total, the call returns a row with daily attempts 0, prints
    the warning that carries the negative difference, and leaves the row as
    the last line of the file when the write succeeds. *)
Theorem negative_delta_clamp (pandas : list line -> read_result)
  (today : date) (sd : segment_data) (fs : files) :
  (forall o row,
      update_master_log pandas today sd fs = Ok o ->
      new_data_row o = Some row ->
      0 <= daily_attempts_int row) /\
  (forall sid total athletes content df e t,
      converts sd sid total athletes ->
      master_csv fs = Some content ->
      read_csv pandas content = Frame df ->
      last_entry sid df = Some e ->
      has_total_attempts_on_date df = true ->
      py_int (total_attempts_on_date e) = Ok t ->
      total < t ->
      exists o row,
        update_master_log pandas today sd fs = Ok o /\
        new_data_row o = Some row /\
        daily_attempts_int row = 0 /\
        In (NegativeDailyAttempts sid (total - t) total t (Some (date_ e)))
           (printed o) /\
        (writable fs = true -> persisted (files_after o) row)).
Proof.
  split.
  - intros o row. apply update_master_log_nonneg.
  - intros sid total athletes content df e t Hc Hfs Hread Hlast Hcol Ht Hlt.
    rewrite (update_master_log_converts pandas today fs Hc).
    eexists. eexists. split; [reflexivity|]. split; [reflexivity|]. simpl.
    rewrite (history_of_baseline pandas sid fs Hfs Hread Hlast Hcol Ht).
    unfold compute_daily_attempts. simpl.
    assert (E : (total - t <? 0) = true) by (apply Z.ltb_lt; lia).
    rewrite E. simpl. split; [reflexivity|]. split.
    + now left.
    + intros Hw. now apply write_row_persisted.
Qed.

Lemma negative_delta_clamp_witness :
  exists o row,
    update_master_log unreadable jan2 (snapshot "42" 150)
      (log_with [logged 42 jan1 200 0]) = Ok o /\
    new_data_row o = Some row /\
    daily_attempts_int row = 0 /\
    In (NegativeDailyAttempts 42 (150 - 200) 150 200 (Some jan1)) (printed o) /\
    (writable (log_with [logged 42 jan1 200 0]) = true ->
     persisted (files_after o) row).
Proof.
  apply (proj2 (negative_delta_clamp unreadable jan2 (snapshot "42" 150)
                  (log_with [logged 42 jan1 200 0]))
           42 150 7 (Text header :: [Data (logged 42 jan1 200 0)])
           {| has_total_attempts_on_date := true;
              has_daily_attempts := true;
              rows := [frame_row_of (logged 42 jan1 200 0)] |}
           (frame_row_of (logged 42 jan1 200 0)) 200);
    try reflexivity.
  repeat split.
Defined.

(** ** Histories that cannot be read *)


(** C6, corrupt-history fallback: when reading the existing log does not
    yield a frame (any of the three exception handlers), the call still
    returns; it takes the call for the segment's first entry, so the new row
    has daily attempts 0 and the snapshot's cumulative attempts, and the row
    is the last line of the file when the write succeeds. *)
Theorem corrupt_history_fallback (pandas : list line -> read_result)
  (today : date) (sd : segment_data) (fs : files) (sid total athletes : Z)
  (content : list line) :
  converts sd sid total athletes ->
  master_csv fs = Some content ->
  (forall df, read_csv pandas content <> Frame df) ->
  exists o row,
    update_master_log pandas today sd fs = Ok o /\
    new_data_row o = Some row /\
    is_first_entry_for_segment (history_of pandas sid fs) = true /\
    daily_attempts_int row = 0 /\
    current_total_attempts row = total /\
    (writable fs = true -> persisted (files_after o) row).
Proof.
  intros Hc Hfs Hread.
  pose proof (history_of_failed_read pandas sid fs Hfs Hread) as Hfirst.
  rewrite (update_master_log_converts pandas today fs Hc).
  eexists. eexists. split; [reflexivity|]. split; [reflexivity|]. simpl.
  rewrite (compute_daily_attempts_first sid total _ Hfirst).
  repeat split; try assumption.
  intros Hw. now apply write_row_persisted.
Qed.

Lemma corrupt_history_fallback_witness :
  let fs := damaged_log in
  exists o row,
    update_master_log unreadable jan3 (snapshot "42" 230) fs = Ok o /\
    new_data_row o = Some row /\
    is_first_entry_for_segment (history_of unreadable 42 fs) = true /\
    daily_attempts_int row = 0 /\
    current_total_attempts row = 230 /\
    (writable fs = true -> persisted (files_after o) row).
Proof.
  intros fs.
  apply (@corrupt_history_fallback unreadable jan3 (snapshot "42" 230) fs
           42 230 7
           [Text header; Data (logged 42 jan1 200 0);
            Text "42,x,2024-01-02,210,10,7,7"]).
  - repeat split.
  - reflexivity.
  - intros df. vm_compute. discriminate.
Defined.



(** C10, invalid id is a no-op: when [int()] rejects the snapshot's id, the
    call returns normally, the files are those it was given, no row is
    computed, and the only output is the error line. *)
Theorem invalid_id_is_noop (pandas : list line -> read_result) (today : date)
  (sd : segment_data) (fs : files) (e : exn) :
  py_int (seg_id sd) = Raise e ->
  update_master_log pandas today sd fs =
  Ok {| files_after := fs;
        new_data_row := None;
        printed := [InvalidSegmentId (seg_id sd)] |}.
Proof. intros H. unfold update_master_log. now rewrite H. Qed.

Lemma invalid_id_is_noop_witness :
  update_master_log unreadable jan2 (snapshot "12a4" 150) no_log =
  Ok {| files_after := no_log;
        new_data_row := None;
        printed := [InvalidSegmentId (PyStr "12a4")] |}.
Proof.
  apply (@invalid_id_is_noop unreadable jan2 (snapshot "12a4" 150) no_log
           ValueError).
  reflexivity.
Defined.

(** ** Sequences of calls *)

Section Calls.

Variable pandas : list line -> read_result.

Lemma history_of_keeps (sid : Z) (fs : files) (l : line) (ls : list line) :
  master_csv fs = Some (l :: ls) ->
  keeps_rows (read_csv pandas (l :: ls)) = true ->
  file_is_empty (history_of pandas sid fs) = false.
Proof.
  intros Hfs Hk. unfold history_of. rewrite Hfs. unfold read_history.
  destruct (read_csv pandas (l :: ls)) as [| | |df]; try discriminate;
    [reflexivity|].
  simpl in Hk. destruct (rows df) as [|r rs]; [discriminate|].
  destruct (last_entry sid df) as [e|]; [|reflexivity].
  destruct (has_total_attempts_on_date df && notna (total_attempts_on_date e));
    [|reflexivity].
  now destruct (py_int (total_attempts_on_date e)).
Qed.

Lemma history_of_header_only (sid : Z) (fs : files) :
  master_csv fs = Some [Text header] ->
  file_is_empty (history_of pandas sid fs) = true.
Proof. intros Hfs. unfold history_of. now rewrite Hfs. Qed.

(** One call on a log that can be read keeps every line and adds the row. *)
Lemma update_master_log_appends (today : date) (sd : segment_data)
  (fs : files) (sid total athletes : Z) :
  converts sd sid total athletes ->
  writable fs = true ->
  appends pandas (lines fs) ->
  exists o row,
    update_master_log pandas today sd fs = Ok o /\
    new_data_row o = Some row /\
    segment_id_int row = sid /\
    today_str row = today /\
    writable (files_after o) = true /\
    master_csv (files_after o) = Some (with_header (lines fs) ++ [Data row]).
Proof.
  intros Hc Hw Ha.
  rewrite (update_master_log_converts pandas today fs Hc).
  eexists. eexists. split; [reflexivity|]. split; [reflexivity|]. simpl.
  split; [reflexivity|]. split; [reflexivity|].
  split; [now rewrite write_row_writable|].
  assert (Hmode :
            (file_is_empty (history_of pandas sid fs) || negb (file_exists fs)
             = true /\ with_header (lines fs) = [Text header]) \/
            (file_is_empty (history_of pandas sid fs) || negb (file_exists fs)
             = false /\ with_header (lines fs) = lines fs)).
  { unfold lines, file_exists in *.
    destruct (master_csv fs) as [[|l ls]|] eqn:Hfs.
    - left. unfold history_of. rewrite Hfs. now split.
    - destruct Ha as [Ha|[Ha|Ha]]; [discriminate| |].
      + left. rewrite Ha in *.
        now rewrite (history_of_header_only sid fs Hfs).
      + right. now rewrite (history_of_keeps sid fs Hfs Ha).
    - left. split; [apply orb_true_r | reflexivity]. }
  unfold write_row. rewrite Hw. simpl.
  destruct Hmode as [[-> ->]|[-> ->]]; reflexivity.
Qed.

(** A run of calls each of which finds contents that it extends: every call
    returns, the lines held before stay, and one row per call follows
    them. *)
Lemma update_all_appends (clock : nat -> date) (l : list segment_data) :
  forall (k : nat) (fs : files),
    Forall convertible l ->
    writable fs = true ->
    each_call_appends pandas clock k l fs ->
    exists fs' out new,
      update_all pandas clock k l fs = (fs', out, None) /\
      writable fs' = true /\
      Forall2 (fun sd row => py_int (seg_id sd) = Ok (segment_id_int row)) l new /\
      lines fs' = match l with
                  | [] => lines fs
                  | _ :: _ => with_header (lines fs) ++ map Data new
                  end.
Proof.
  induction l as [|sd l IH]; intros k fs Hl Hw Hr.
  - exists fs, [], []. repeat split; [assumption | constructor].
  - inversion Hl as [|? ? Hsd Hl']; subst.
    destruct Hsd as (sid & total & athletes & Hc).
    destruct Hr as [Ha Hr].
    destruct (@update_master_log_appends (clock k) sd fs sid total athletes
                Hc Hw Ha)
      as (o & row & Ho & Hrow & Hsid & _ & Hw' & Hfs').
    rewrite Ho in Hr.
    destruct (IH (S k) (files_after o) Hl' Hw' Hr)
      as (fs' & out & new & Hall & Hw'' & Hids & Hlines).
    exists fs', (printed o ++ out), (row :: new).
    simpl. rewrite Ho, Hall. repeat split; try assumption.
    + constructor; [|exact Hids]. rewrite Hsid. apply Hc.
    + rewrite Hlines. unfold lines at 1 2. rewrite Hfs'.
      destruct l as [|sd' l'].
      * inversion Hids; subst. reflexivity.
      * replace (with_header (with_header (lines fs) ++ [Data row]))
          with (with_header (lines fs) ++ [Data row])
          by (now destruct (lines fs)).
        now rewrite <- app_assoc.
Qed.

End Calls.

Lemma records_app (a b : list line) :
  records (a ++ b) = records a ++ records b.
Proof.
  induction a as [|[s|r] a IH]; simpl; [reflexivity | exact IH|].
  now rewrite IH.
Qed.

Lemma records_data (rs : list data_row) : records (map Data rs) = rs.
Proof. induction rs as [|r rs IH]; simpl; [reflexivity | now rewrite IH]. Qed.

Lemma with_header_prefix (ls : list line) :
  exists prefix,
    with_header ls = ls ++ prefix /\
    records prefix = [] /\
    (prefix = [] \/ ls = [] /\ prefix = [Text header]).
Proof.
  destruct ls as [|l ls].
  - exists [Text header]. repeat split. right. now split.
  - exists []. simpl. rewrite app_nil_r. repeat split. now left.
Qed.

(** ** Logs in the program's own format *)

Lemma data_rows_data (rs : list data_row) : data_rows (map Data rs) = Some rs.
Proof. induction rs as [|r rs IH]; simpl; [reflexivity | now rewrite IH]. Qed.

Lemma lines_master_csv (fs : files) (l : line) (ls : list line) :
  lines fs = l :: ls -> master_csv fs = Some (l :: ls).
Proof. unfold lines. destruct (master_csv fs); [now intros -> | discriminate]. Qed.

Lemma counter_bounds (z : Z) :
  counter z = true <-> 0 <= z <= 9223372036854775807.
Proof. unfold counter. now rewrite andb_true_iff, !Z.leb_le. Qed.

Section OwnFormat.

Variable pandas : list line -> read_result.

(** A log in the program's format whose rows are held as written is read as
    those rows. *)
Lemma read_csv_own_format (rs : list data_row) :
  forallb read_back rs = true ->
  read_csv pandas (Text header :: map Data rs) =
  Frame {| has_total_attempts_on_date := true;
           has_daily_attempts := true;
           rows := map frame_row_of rs |}.
Proof.
  intros H. unfold read_csv, own_format. rewrite String.eqb_refl.
  now rewrite data_rows_data, H.
Qed.

Lemma appends_own_format (rs : list data_row) :
  forallb read_back rs = true ->
  appends pandas (Text header :: map Data rs).
Proof.
  intros H. destruct rs as [|r rs].
  - right. now left.
  - right. right. now rewrite read_csv_own_format.
Qed.

Lemma holds_rows_appends (fs : files) (rs : list data_row) :
  holds_rows fs rs ->
  forallb read_back rs = true ->
  appends pandas (lines fs).
Proof.
  intros [[Hl _]|Hl] H; rewrite Hl; [now left|]. now apply appends_own_format.
Qed.

(** The last total that a call reads from such a log is not negative. *)
Lemma history_of_own_format_nonneg (sid : Z) (fs : files)
  (rs : list data_row) :
  holds_rows fs rs ->
  forallb read_back rs = true ->
  0 <= last_total_attempts (history_of pandas sid fs).
Proof.
  intros [[Hl _]|Hl] H.
  - unfold history_of. unfold lines in Hl.
    destruct (master_csv fs) as [c|]; [subst c|]; simpl; lia.
  - pose proof (lines_master_csv fs Hl) as Hfs.
    unfold history_of. rewrite Hfs. unfold read_history.
    rewrite (read_csv_own_format rs H).
    set (df := {| has_total_attempts_on_date := true;
                  has_daily_attempts := true;
                  rows := map frame_row_of rs |}).
    destruct (rows df) as [|x xs] eqn:Hrows; [simpl; lia|].
    destruct (last_entry sid df) as [e|] eqn:Hlast; [|simpl; lia].
    destruct (last_entry_greatest sid df Hlast) as (Hin & _ & _).
    simpl in Hin. apply in_map_iff in Hin. destruct Hin as (r & <- & Hr).
    rewrite forallb_forall in H. specialize (H r Hr).
    unfold read_back in H. rewrite !andb_true_iff in H.
    destruct H as ((((_ & _) & Ht) & _) & _).
    apply counter_bounds in Ht. simpl. lia.
Qed.

Lemma compute_daily_attempts_le (sid total : Z) (h : history) :
  0 <= total ->
  0 <= last_total_attempts h ->
  fst (compute_daily_attempts sid total h) <= total.
Proof.
  intros Ht Hl. unfold compute_daily_attempts.
  destruct (is_first_entry_for_segment h); simpl; [lia|].
  destruct (total - last_total_attempts h <? 0); simpl; lia.
Qed.

(** The row computed on such a log from values held as written is held as
    written too. *)
Lemma new_row_read_back (today : date) (name : string) (fs : files)
  (sid total athletes : Z) (rs : list data_row) :
  holds_rows fs rs ->
  forallb read_back rs = true ->
  int64 sid = true ->
  counter total = true ->
  counter athletes = true ->
  timestamp today = true ->
  read_back {| segment_id_int := sid;
               segment_name := name;
               today_str := today;
               current_total_attempts := total;
               daily_attempts_int :=
                 fst (compute_daily_attempts sid total
                        (history_of pandas sid fs));
               current_athlete_count := athletes |} = true.
Proof.
  intros Hrs H Hid Ht Ha Hd. unfold read_back. simpl.
  rewrite Hid, Hd, Ht, Ha. simpl. rewrite andb_true_r.
  apply counter_bounds. apply counter_bounds in Ht.
  pose proof (compute_daily_attempts_nonneg sid total
                (history_of pandas sid fs)).
  pose proof (@compute_daily_attempts_le sid total (history_of pandas sid fs)
                (proj1 Ht) (history_of_own_format_nonneg sid Hrs H)).
  lia.
Qed.

(** One call on a log in the program's format: the file is the header and
    the rows, with the new row at the end. *)
Lemma update_own_format (today : date) (sd : segment_data) (fs : files)
  (sid total athletes : Z) (rs : list data_row) :
  converts sd sid total athletes ->
  writable fs = true ->
  holds_rows fs rs ->
  forallb read_back rs = true ->
  let row := {| segment_id_int := sid;
                segment_name := seg_name sd;
                today_str := today;
                current_total_attempts := total;
                daily_attempts_int :=
                  fst (compute_daily_attempts sid total
                         (history_of pandas sid fs));
                current_athlete_count := athletes |} in
  exists o,
    update_master_log pandas today sd fs = Ok o /\
    new_data_row o = Some row /\
    writable (files_after o) = true /\
    master_csv (files_after o) = Some (Text header :: map Data (rs ++ [row])).
Proof.
  intros Hc Hw Hrs Hback row.
  pose proof (holds_rows_appends Hrs Hback) as Ha.
  destruct (@update_master_log_appends pandas today sd fs sid total athletes
              Hc Hw Ha) as (o & row' & Ho & Hrow & _ & _ & Hw' & Hfs').
  exists o. split; [exact Ho|].
  rewrite (update_master_log_converts pandas today fs Hc) in Ho.
  injection Ho as Ho. rewrite <- Ho in Hrow. simpl in Hrow.
  injection Hrow as Hrow. fold row in Hrow. subst row'.
  split; [now rewrite <- Ho|]. split; [exact Hw'|].
  rewrite Hfs'. destruct Hrs as [[Hl ->]|Hl]; rewrite Hl; simpl.
  - reflexivity.
  - now rewrite map_app.
Qed.


End OwnFormat.

Lemma holds_rows_records (fs : files) (rs : list data_row) :
  holds_rows fs rs -> records (lines fs) = rs.
Proof.
  intros [ [Hl Hr] | Hl ]; rewrite Hl; [now rewrite Hr|]. simpl.
  apply records_data.
Qed.

(** ** The append-only invariant *)




(** ** The renderer *)

Lemma fold_min_lower_bound (l : list frame_row) (m : date) :
  Forall (fun x => m <= date_ x) l ->
  fold_left (fun m x => Z.min m (date_ x)) l m = m.
Proof.
  induction 1 as [|x l Hx Hl IH]; simpl; [reflexivity|].
  now rewrite Z.min_l.
Qed.

(** The least index of a sorted segment is the date of its first row. *)
Lemma index_min_sorted (x : frame_row) (l : list frame_row) :
  StronglySorted date_le (x :: l) -> index_min (x :: l) = Some (date_ x).
Proof.
  intros Hs. inversion Hs as [|? ? _ Hall]; subst. simpl.
  now rewrite fold_min_lower_bound.
Qed.



(** The series of the sample log: the anchor on 2024-01-01, then the rows
    of 2024-01-02 and 2024-01-03. *)
Example sample_series_with_anchor :
  generate_plot unreadable (PyStr "42") "Col"
    (log_with [logged 42 jan3 31 6; logged 7 jan2 3 0; logged 42 jan2 25 8]) =
  (Some {| plot_segment_id := PyStr "42";
           plot_segment_name := "Col";
           df_to_plot := [(jan1, 0); (jan2, 8); (jan3, 6)] |}, []).
Proof. reflexivity. Qed.

(** ** The run *)

Section Run.

Variable pandas : list line -> read_result.
Variable api : string -> response.

Lemma fetch_fold (ids : list string) :
  forall st : fetched,
    let st' := fold_left (fetch_step api) ids st in
    all_segment_data_current st' =
      all_segment_data_current st ++ fetched_data api ids /\
    processed_count st' =
      (processed_count st + List.length (filter (answered api) ids))%nat /\
    error_count st' =
      (error_count st + List.length (filter (failed api) ids))%nat.
Proof.
  induction ids as [|s ids IH]; intros st; simpl.
  - rewrite app_nil_r. repeat split; lia.
  - destruct (IH (fetch_step api st s)) as (Ha & Hp & He).
    cbv zeta in Ha, Hp, He. rewrite Ha, Hp, He. clear Ha Hp He IH.
    unfold failed. unfold fetch_step, get_segment_data.
    destruct (api s) as [|name efforts athletes|] eqn:E;
      [assert (Ha : answered api s = false) by (unfold answered; now rewrite E)
      |assert (Ha : answered api s = true) by (unfold answered; now rewrite E)
      |assert (Ha : answered api s = false) by (unfold answered; now rewrite E)];
      rewrite Ha; simpl; rewrite <- ?app_assoc; repeat split; lia.
Qed.

Lemma fetch_all_spec (ids : list string) :
  all_segment_data_current (fetch_all api ids) = fetched_data api ids /\
  processed_count (fetch_all api ids) =
    List.length (filter (answered api) ids) /\
  error_count (fetch_all api ids) = List.length (filter (failed api) ids).
Proof. unfold fetch_all. apply (fetch_fold ids). Qed.

Lemma fetched_data_ids (ids : list string) :
  map seg_id (fetched_data api ids) = map PyStr (filter (answered api) ids).
Proof.
  induction ids as [|s ids IH]; simpl; [reflexivity|].
  unfold get_segment_data, answered.
  destruct (api s) as [|name efforts athletes|]; simpl; try exact IH.
  f_equal. exact IH.
Qed.




End Run.




(** The run of the sample: three segments, the second fetch fails; two rows
    are appended, two charts produced, and the summary counts one failure. *)
Example sample_run_second_fetch_fails :
  let r := main unreadable second_fails ["1"; "2"; "3"] (fun _ => jan2)
             (log_with [logged 1 jan1 100 0]) in
  exit_status r = 0 /\
  records (lines (files_end r)) =
    [logged 1 jan1 100 0; logged 1 jan2 150 50; logged 3 jan2 150 0] /\
  map plot_segment_id (charts r) = [PyStr "1"; PyStr "3"] /\
  map df_to_plot (charts r) =
    [[(jan1 - 1, 0); (jan1, 0); (jan2, 50)]; [(jan1, 0); (jan2, 0)]] /\
  stdout r = [SkippingSegment "2"; Summary 2 1].
Proof. repeat split. Qed.

(** A counter that [int()] rejects ends the run with a non-zero status. *)
Example run_aborts_on_bad_counter :
  exit_status
    (main unreadable (fun _ => Answer (Some "Col") (Some (PyStr "n/a")) None)
       ["1"] (fun _ => jan2) no_log) = 1.
Proof. reflexivity. Qed.

(** Identifiers beyond [Int64], when the read of such a row raises: the
    second call cannot read the row of the first and writes the file anew,
    so the run leaves one row for two fetched segments. *)
Example run_rewrites_beyond_int64 :
  let r := main unreadable second_fails beyond_int64 (fun _ => jan2) no_log in
  exit_status r = 0 /\
  map segment_id_int (records (lines (files_end r))) = [9223372036854775809].
Proof. split; reflexivity. Qed.

(** A log without the [segment_id] column: the rows are appended, and no
    chart is made. *)
Example run_without_id_column :
  let r := main no_id_column second_fails ["1"; "2"; "3"] (fun _ => jan2)
             headless_log in
  exit_status r = 0 /\
  map segment_id_int (records (lines (files_end r))) = [1; 3] /\
  charts r = [].
Proof. repeat split. Qed.

(** * Further properties *)

(** ** White space and the list of segment identifiers *)

Lemma lstrip_split (l : list ascii) :
  exists sp, l = sp ++ lstrip l /\ forallb is_space sp = true.
Proof.
  induction l as [|c l (sp & Hl & Hsp)]; simpl.
  - now exists [].
  - destruct (is_space c) eqn:E.
    + exists (c :: sp). simpl. rewrite E, Hsp. split; [now f_equal | reflexivity].
    + now exists [].
Qed.

Lemma lstrip_head (l r : list ascii) (c : ascii) :
  lstrip l = c :: r -> is_space c = false.
Proof.
  induction l as [|x l IH]; simpl; [discriminate|].
  destruct (is_space x) eqn:E; [exact IH|].
  now intros [= <- _].
Qed.

Lemma lstrip_fixed (c : ascii) (l : list ascii) :
  is_space c = false -> lstrip (c :: l) = c :: l.
Proof. intros H. simpl. now rewrite H. Qed.

Lemma lstrip_idempotent (l : list ascii) : lstrip (lstrip l) = lstrip l.
Proof.
  destruct (lstrip l) as [|c r] eqn:E; [reflexivity|].
  apply lstrip_fixed. eapply lstrip_head. exact E.
Qed.

Lemma lstrip_nil (l : list ascii) :
  lstrip l = [] <-> forallb is_space l = true.
Proof.
  induction l as [|c l IH]; simpl; [tauto|].
  destruct (is_space c); simpl; [exact IH|].
  split; discriminate.
Qed.

Lemma forallb_rev (f : ascii -> bool) (l : list ascii) :
  forallb f (rev l) = forallb f l.
Proof.
  induction l as [|c l IH]; simpl; [reflexivity|].
  rewrite forallb_app, IH. simpl. rewrite andb_true_r. apply andb_comm.
Qed.

(** What is left of [lstrip l] once the white space at its end is removed
    still starts where [lstrip l] starts. *)
Lemma lstrip_rev_lstrip (l : list ascii) :
  lstrip (rev (lstrip (rev (lstrip l)))) = rev (lstrip (rev (lstrip l))).
Proof.
  destruct (lstrip_split (rev (lstrip l))) as (sp & Hsplit & Hsp).
  destruct (rev (lstrip (rev (lstrip l)))) as [|c r] eqn:E; [reflexivity|].
  apply lstrip_fixed.
  apply (f_equal (@rev ascii)) in Hsplit.
  rewrite rev_involutive, rev_app_distr, E in Hsplit. simpl in Hsplit.
  eapply lstrip_head. exact Hsplit.
Qed.

Lemma strip_fixed (l : list ascii) :
  lstrip l = l -> lstrip (rev l) = rev l -> strip l = l.
Proof.
  intros H1 H2. unfold strip. rewrite H1, H2. apply rev_involutive.
Qed.

Lemma strip_idempotent (l : list ascii) : strip (strip l) = strip l.
Proof.
  apply strip_fixed.
  - apply lstrip_rev_lstrip.
  - unfold strip. rewrite rev_involutive. apply lstrip_idempotent.
Qed.

Lemma strip_nil (l : list ascii) :
  strip l = [] <-> forallb is_space l = true.
Proof.
  unfold strip. split.
  - intros H. apply (f_equal (@rev ascii)) in H.
    rewrite rev_involutive in H. simpl in H.
    apply lstrip_nil in H. rewrite forallb_rev in H.
    destruct (lstrip_split l) as (sp & Hl & Hsp).
    destruct (lstrip l) as [|c r] eqn:E.
    + now apply lstrip_nil.
    + simpl in H. rewrite (lstrip_head _ E) in H. discriminate.
  - intros H. apply lstrip_nil in H. now rewrite H.
Qed.

Lemma lstrip_incl (l : list ascii) (c : ascii) : In c (lstrip l) -> In c l.
Proof.
  destruct (lstrip_split l) as (sp & Hl & _). intros H.
  rewrite Hl. apply in_or_app. now right.
Qed.

Lemma strip_incl (l : list ascii) (c : ascii) : In c (strip l) -> In c l.
Proof.
  unfold strip. intros H. apply in_rev in H.
  apply lstrip_incl in H. apply in_rev in H. now apply lstrip_incl.
Qed.

Lemma strip_space_first (c : ascii) (l : list ascii) :
  is_space c = true -> strip (c :: l) = strip l.
Proof. intros H. unfold strip. simpl. now rewrite H. Qed.

Lemma split_on_cons (sep : ascii) (s : list ascii) :
  exists w ws, split_on sep s = w :: ws.
Proof.
  induction s as [|c s (w & ws & H)]; simpl.
  - now exists [], [].
  - destruct (Ascii.eqb c sep).
    + now exists [], (split_on sep s).
    + rewrite H. now exists (c :: w), ws.
Qed.

Lemma split_on_no_sep (sep : ascii) (s : list ascii) :
  Forall (fun w => ~ In sep w) (split_on sep s).
Proof.
  induction s as [|c s IH]; simpl.
  - constructor; [intros [] | constructor].
  - destruct (Ascii.eqb c sep) eqn:E.
    + constructor; [intros [] | exact IH].
    + destruct (split_on sep s) as [|w ws].
      * constructor; [|constructor].
        intros [->|[]]. now rewrite Ascii.eqb_refl in E.
      * inversion IH as [|? ? Hw Hws]; subst. constructor; [|exact Hws].
        intros [->|H]; [now rewrite Ascii.eqb_refl in E | now apply Hw].
Qed.

Lemma split_on_whole (sep : ascii) (s : list ascii) :
  ~ In sep s -> split_on sep s = [s].
Proof.
  induction s as [|c s IH]; simpl; intros H; [reflexivity|].
  destruct (Ascii.eqb c sep) eqn:E.
  - apply Ascii.eqb_eq in E. subst. exfalso. apply H. now left.
  - rewrite IH; [reflexivity|]. intros Hin. apply H. now right.
Qed.

Lemma split_on_app (sep : ascii) (a b : list ascii) :
  ~ In sep a -> split_on sep (a ++ sep :: b) = a :: split_on sep b.
Proof.
  induction a as [|c a IH]; simpl; intros H.
  - now rewrite Ascii.eqb_refl.
  - destruct (Ascii.eqb c sep) eqn:E.
    + apply Ascii.eqb_eq in E. subst. exfalso. apply H. now left.
    + rewrite IH; [reflexivity|]. intros Hin. apply H. now right.
Qed.

Lemma nonempty_string (w : list ascii) :
  nonempty w = true -> string_of_list_ascii w <> EmptyString.
Proof. destruct w; [discriminate | simpl; discriminate]. Qed.

Lemma parse_segment_ids_clean (raw : string) :
  Forall clean_id (parse_segment_ids raw).
Proof.
  unfold parse_segment_ids. apply Forall_forall. intros s Hs.
  apply in_map_iff in Hs. destruct Hs as (w & <- & Hw).
  apply filter_In in Hw. destruct Hw as (Hw & Hne).
  apply in_map_iff in Hw. destruct Hw as (v & <- & Hv).
  unfold clean_id. rewrite list_ascii_of_string_of_list_ascii.
  split; [now apply nonempty_string|]. split.
  - intros Hc. apply strip_incl in Hc.
    pose proof (split_on_no_sep ","%char (list_ascii_of_string raw)) as Hall.
    rewrite Forall_forall in Hall. exact (Hall v Hv Hc).
  - apply strip_idempotent.
Qed.

Lemma split_on_all_space (s : list ascii) :
  Forall (fun w => forallb is_space w = true) (split_on ","%char s) <->
  forallb separator s = true.
Proof.
  induction s as [|c s IH]; simpl.
  - split; [reflexivity | intros _; repeat constructor].
  - unfold separator at 1. destruct (Ascii.eqb c ","%char) eqn:E; simpl.
    + rewrite <- IH. split.
      * intros H. now inversion H.
      * intros H. now constructor.
    + destruct (split_on_cons ","%char s) as (w & ws & Hs).
      rewrite Hs in *. rewrite andb_true_iff, <- IH. split.
      * intros H. inversion H as [|? ? Hcw Hws]; subst. simpl in Hcw.
        apply andb_true_iff in Hcw. destruct Hcw as [Hc Hw].
        split; [exact Hc | now constructor].
      * intros [Hc H]. inversion H as [|? ? Hw Hws]; subst.
        constructor; [|exact Hws]. simpl. now rewrite Hc, Hw.
Qed.

Lemma filter_nonempty_nil (l : list (list ascii)) :
  filter nonempty l = [] <-> Forall (fun w => w = []) l.
Proof.
  induction l as [|w l IH]; simpl.
  - split; [constructor | reflexivity].
  - destruct w as [|c w]; simpl.
    + rewrite IH. split; [now constructor | intros H; now inversion H].
    + split; [discriminate | intros H; inversion H; discriminate].
Qed.

Lemma parse_segment_ids_nil (raw : string) :
  parse_segment_ids raw = [] <->
  forallb separator (list_ascii_of_string raw) = true.
Proof.
  rewrite <- split_on_all_space. unfold parse_segment_ids.
  split.
  - intros H. apply map_eq_nil in H. apply filter_nonempty_nil in H.
    rewrite Forall_map in H. eapply Forall_impl; [|exact H].
    intros w Hw. now apply strip_nil.
  - intros H.
    assert (Hn : filter nonempty
                   (map strip (split_on ","%char (list_ascii_of_string raw)))
                 = []).
    { apply filter_nonempty_nil. rewrite Forall_map.
      eapply Forall_impl; [|exact H]. intros w Hw. now apply strip_nil. }
    now rewrite Hn.
Qed.

Lemma list_ascii_of_append (a b : string) :
  list_ascii_of_string (String.append a b) =
  list_ascii_of_string a ++ list_ascii_of_string b.
Proof. induction a as [|c a IH]; simpl; [reflexivity | now rewrite IH]. Qed.

Lemma parse_one_clean (s : string) :
  clean_id s -> parse_segment_ids s = [s].
Proof.
  intros (Hne & Hcomma & Hstrip). unfold parse_segment_ids.
  assert (Hn : nonempty (list_ascii_of_string s) = true)
    by (destruct s; [contradiction | reflexivity]).
  rewrite (@split_on_whole ","%char _ Hcomma). simpl.
  rewrite Hstrip, Hn. simpl. now rewrite string_of_list_ascii_of_string.
Qed.

(** ** [load_config] *)

(** X1, identifiers handed to the fetch loop: a configuration that
    [load_config] returns holds at least one segment identifier, and each
    one is not empty, holds no comma and has no white space at either end. *)
Theorem load_config_ids_clean (env : environ) (file : config_file)
  (c : app_config) :
  load_config env file = inr c ->
  segment_id_list c <> [] /\ Forall clean_id (segment_id_list c).
Proof.
  unfold load_config.
  destruct (config_source env file) as [e|[[[cid secret] token] raw]];
    [discriminate|].
  pose proof (parse_segment_ids_clean raw) as Hclean.
  destruct (parse_segment_ids raw) as [|s l]; [discriminate|].
  intros [= <-]. simpl. split; [discriminate | exact Hclean].
Qed.

Lemma load_config_ids_clean_witness :
  segment_id_list
    {| client_id := "1234"; client_secret := "s3cret";
       refresh_token := "r3fresh"; segment_id_list := ["229781"; "7"; "12"] |}
  <> [] /\
  Forall clean_id ["229781"; "7"; "12"].
Proof.
  apply (@load_config_ids_clean full_environ NoConfigFile
           {| client_id := "1234"; client_secret := "s3cret";
              refresh_token := "r3fresh";
              segment_id_list := ["229781"; "7"; "12"] |}).
  reflexivity.
Defined.

(** X2, the environment comes first: when the four variables are set and
    not empty, [load_config] takes every value from them and the result does
    not depend on [config.ini]; it fails only when no identifier is left
    after parsing. *)
Theorem load_config_environment_first (env : environ) (file : config_file)
  (cid secret token ids : string) :
  STRAVA_CLIENT_ID env = Some cid ->
  STRAVA_CLIENT_SECRET env = Some secret ->
  STRAVA_REFRESH_TOKEN env = Some token ->
  STRAVA_SEGMENT_IDS env = Some ids ->
  cid <> EmptyString -> secret <> EmptyString ->
  token <> EmptyString -> ids <> EmptyString ->
  load_config env file =
  match parse_segment_ids ids with
  | [] => inl NoSegmentIds
  | parsed => inr {| client_id := cid;
                     client_secret := secret;
                     refresh_token := token;
                     segment_id_list := parsed |}
  end.
Proof.
  intros H1 H2 H3 H4 N1 N2 N3 N4.
  unfold load_config, config_source, from_environment.
  rewrite H1, H2, H3, H4. simpl.
  apply String.eqb_neq in N1, N2, N3, N4.
  now rewrite N1, N2, N3, N4.
Qed.

Lemma load_config_environment_first_witness :
  load_config full_environ sample_ini =
  inr {| client_id := "1234"; client_secret := "s3cret";
         refresh_token := "r3fresh";
         segment_id_list := ["229781"; "7"; "12"] |}.
Proof.
  apply (@load_config_environment_first full_environ sample_ini
           "1234" "s3cret" "r3fresh" " 229781, 7 ,,12 ");
    solve [reflexivity | discriminate].
Defined.

(** X3, no mixing of sources: when one of the four variables is unset or
    empty, none of them is used; [load_config] behaves as with an empty
    environment and takes all four values from [config.ini]. *)
Theorem load_config_partial_environment (env : environ) (file : config_file) :
  is_set (STRAVA_CLIENT_ID env) && is_set (STRAVA_CLIENT_SECRET env)
  && is_set (STRAVA_REFRESH_TOKEN env) && is_set (STRAVA_SEGMENT_IDS env)
  = false ->
  load_config env file = load_config empty_environ file /\
  (forall c, load_config env file = inr c ->
             exists section,
               file = ConfigParsed (Some section) /\
               section "client_id" = Some (client_id c) /\
               section "client_secret" = Some (client_secret c) /\
               section "refresh_token" = Some (refresh_token c)).
Proof.
  intros H.
  assert (E : config_source env file = from_file file)
    by (unfold config_source, from_environment; now rewrite H).
  split.
  - unfold load_config. now rewrite E.
  - intros c. unfold load_config. rewrite E. unfold from_file.
    destruct file as [| |[section|]]; try discriminate.
    destruct (section "client_id") as [a|] eqn:Ea; [|discriminate].
    destruct (section "client_secret") as [b|] eqn:Eb; [|discriminate].
    destruct (section "refresh_token") as [t|] eqn:Et; [|discriminate].
    destruct (section "segment_ids") as [d|]; [|discriminate].
    destruct (parse_segment_ids d); [discriminate|].
    intros [= <-]. exists section. simpl. repeat split; assumption.
Qed.

Lemma load_config_partial_environment_witness :
  load_config partial_environ sample_ini =
  load_config empty_environ sample_ini /\
  (forall c, load_config partial_environ sample_ini = inr c ->
             exists section,
               sample_ini = ConfigParsed (Some section) /\
               section "client_id" = Some (client_id c) /\
               section "client_secret" = Some (client_secret c) /\
               section "refresh_token" = Some (refresh_token c)).
Proof.
  apply (@load_config_partial_environment partial_environ sample_ini).
  reflexivity.
Defined.

(** X4, empty lists of identifiers: once the four values are found, the
    configuration is refused for want of identifiers exactly when the
    identifier string holds nothing but commas and white space. *)
Theorem load_config_no_segment_ids (env : environ) (file : config_file)
  (cid secret token raw : string) :
  config_source env file = inr (cid, secret, token, raw) ->
  (load_config env file = inl NoSegmentIds <->
   forallb separator (list_ascii_of_string raw) = true).
Proof.
  intros H. unfold load_config. rewrite H.
  rewrite <- parse_segment_ids_nil.
  destruct (parse_segment_ids raw); split; try reflexivity; discriminate.
Qed.

Lemma load_config_no_segment_ids_witness :
  load_config empty_environ
    (ConfigParsed (Some (fun _ => Some " , ,, "))) = inl NoSegmentIds <->
  forallb separator (list_ascii_of_string " , ,, ") = true.
Proof.
  apply (@load_config_no_segment_ids empty_environ
           (ConfigParsed (Some (fun _ => Some " , ,, ")))
           " , ,, " " , ,, " " , ,, " " , ,, ").
  reflexivity.
Defined.

Lemma parse_segment_ids_cons (s t : string) :
  clean_id s ->
  parse_segment_ids (String.append s (String.append ", " t)) =
  s :: parse_segment_ids t.
Proof.
  intros (Hne & Hcomma & Hstrip). unfold parse_segment_ids.
  rewrite !list_ascii_of_append. simpl.
  rewrite (@split_on_app ","%char _ _ Hcomma). simpl.
  destruct (split_on_cons ","%char (list_ascii_of_string t)) as (w & ws & Hs).
  rewrite Hs. simpl.
  rewrite (@strip_space_first " "%char w eq_refl), Hstrip.
  assert (Hn : nonempty (list_ascii_of_string s) = true)
    by (destruct s; [contradiction | reflexivity]).
  rewrite Hn. simpl. now rewrite string_of_list_ascii_of_string.
Qed.

Lemma parse_join_ids (ids : list string) :
  Forall clean_id ids -> parse_segment_ids (join_ids ids) = ids.
Proof.
  induction 1 as [|s ids Hs Hids IH]; [reflexivity|].
  destruct ids as [|s' ids].
  - now apply parse_one_clean.
  - change (join_ids (s :: s' :: ids))
      with (String.append s (String.append ", " (join_ids (s' :: ids)))).
    rewrite (parse_segment_ids_cons _ Hs). now rewrite IH.
Qed.

(** X5, the list that is printed reads back: joining the identifiers of a
    returned configuration with a comma and a space, as the program prints
    them, and parsing the result gives the same identifiers. *)
Theorem load_config_ids_round_trip (env : environ) (file : config_file)
  (c : app_config) :
  load_config env file = inr c ->
  parse_segment_ids (join_ids (segment_id_list c)) = segment_id_list c.
Proof.
  unfold load_config.
  destruct (config_source env file) as [e|[[[cid secret] token] raw]];
    [discriminate|].
  pose proof (parse_segment_ids_clean raw) as Hclean.
  destruct (parse_segment_ids raw) as [|s l]; [discriminate|].
  intros [= <-]. simpl segment_id_list. now apply parse_join_ids.
Qed.

Lemma load_config_ids_round_trip_witness :
  parse_segment_ids (join_ids ["229781"; "7"; "12"]) = ["229781"; "7"; "12"].
Proof.
  apply (@load_config_ids_round_trip full_environ sample_ini
           {| client_id := "1234"; client_secret := "s3cret";
              refresh_token := "r3fresh";
              segment_id_list := ["229781"; "7"; "12"] |}).
  reflexivity.
Defined.

(** ** More on one call of [update_master_log] *)

Section MoreOnOneCall.

Variable pandas : list line -> read_result.


(** The history when the baseline row has no usable total. *)
Lemma history_of_no_total (sid : Z) (fs : files) (content : list line)
  (df : data_frame) (e : frame_row) :
  master_csv fs = Some content ->
  read_csv pandas content = Frame df ->
  last_entry sid df = Some e ->
  has_total_attempts_on_date df = false \/
  (exists x, py_int (total_attempts_on_date e) = Raise x) ->
  history_of pandas sid fs = previous_entry e 0 [TotalMissing sid (date_ e)] \/
  history_of pandas sid fs =
    previous_entry e 0 [TotalNotConvertible (total_attempts_on_date e) sid].
Proof.
  intros Hfs Hread Hlast Hno. unfold history_of. rewrite Hfs.
  destruct content as [|l ls]; [discriminate|].
  unfold read_history. rewrite Hread.
  destruct (rows df) as [|r rs] eqn:Hrows.
  - unfold last_entry, segment_df in Hlast. rewrite Hrows in Hlast.
    discriminate.
  - rewrite Hlast. destruct Hno as [Hcol|[x Hx]].
    + rewrite Hcol. now left.
    + destruct (has_total_attempts_on_date df); [|now left].
      destruct (total_attempts_on_date e) as [|z|str]; simpl.
      * now left.
      * discriminate.
      * simpl in Hx. destruct (int_of_string str); [discriminate|]. now right.
Qed.

End MoreOnOneCall.



(** X7, a baseline without a total: when the frame has no
    [total_attempts_on_date] column, or the cell of the latest row of the
    segment is empty (NaN) or holds text that [int()] rejects with a
    [ValueError], the last total is taken as 0, so the new row's daily
    attempts are the snapshot's whole cumulative count (0 if that is
    negative), and a warning is printed. *)
Theorem baseline_without_total (pandas : list line -> read_result)
  (today : date) (sd : segment_data) (fs : files) (sid total athletes : Z)
  (content : list line) (df : data_frame) (e : frame_row) :
  converts sd sid total athletes ->
  master_csv fs = Some content ->
  read_csv pandas content = Frame df ->
  last_entry sid df = Some e ->
  has_total_attempts_on_date df = false \/
  (exists x, py_int (total_attempts_on_date e) = Raise x) ->
  exists o row,
    update_master_log pandas today sd fs = Ok o /\
    new_data_row o = Some row /\
    daily_attempts_int row = Z.max 0 total /\
    (In (TotalMissing sid (date_ e)) (printed o) \/
     In (TotalNotConvertible (total_attempts_on_date e) sid) (printed o)).
Proof.
  intros Hc Hfs Hread Hlast Hno.
  rewrite (update_master_log_converts pandas today fs Hc).
  eexists. eexists. split; [reflexivity|]. split; [reflexivity|]. simpl.
  destruct (history_of_no_total pandas sid fs Hfs Hread Hlast Hno) as [-> | ->];
    unfold compute_daily_attempts; simpl; rewrite Z.sub_0_r;
    (split; [destruct (total <? 0) eqn:E; simpl;
             [apply Z.ltb_lt in E | apply Z.ltb_ge in E]; lia|]).
  - left. now left.
  - right. now left.
Qed.

Lemma baseline_without_total_witness :
  exists o row,
    update_master_log frame_without_total jan2 (snapshot "42" 5000)
      log_without_total = Ok o /\
    new_data_row o = Some row /\
    daily_attempts_int row = Z.max 0 5000 /\
    (In (TotalMissing 42 jan1) (printed o) \/
     In (TotalNotConvertible PyNone 42) (printed o)).
Proof.
  apply (@baseline_without_total frame_without_total jan2 (snapshot "42" 5000)
           log_without_total 42 5000 7
           [Text "segment_id,date,daily_attempts"; Text "42,2024-01-01,0"]
           {| has_total_attempts_on_date := false;
              has_daily_attempts := true;
              rows := [{| segment_id := Some 42;
                          date_ := jan1;
                          total_attempts_on_date := PyNone;
                          daily_attempts := 0 |}] |}
           {| segment_id := Some 42;
              date_ := jan1;
              total_attempts_on_date := PyNone;
              daily_attempts := 0 |});
    try reflexivity.
  - repeat split.
  - now left.
Defined.

(** X8, a write that fails: when the file cannot be opened for writing, no
    call changes the files; a call whose snapshot converts still returns,
    with the row it computed and the error line as its last output. *)
Theorem failed_write_keeps_file (pandas : list line -> read_result)
  (today : date) (sd : segment_data) (fs : files) :
  writable fs = false ->
  (forall o, update_master_log pandas today sd fs = Ok o ->
             files_after o = fs) /\
  (forall sid total athletes,
      converts sd sid total athletes ->
      exists o row out,
        update_master_log pandas today sd fs = Ok o /\
        new_data_row o = Some row /\
        current_total_attempts row = total /\
        printed o = out ++ [CouldNotWrite]).
Proof.
  intros Hw. split.
  - intros o. unfold update_master_log.
    destruct (py_int (seg_id sd)) as [sid|]; [|now intros [= <-]].
    destruct (py_int (or_zero (effort_count sd))) as [total|]; [|discriminate].
    destruct (py_int (or_zero (athlete_count sd))) as [athletes|];
      [|discriminate].
    simpl. destruct (compute_daily_attempts _ _ _) as [daily w].
    rewrite write_row_unwritable by exact Hw. now intros [= <-].
  - intros sid total athletes Hc.
    rewrite (update_master_log_converts pandas today fs Hc).
    eexists. eexists. eexists. split; [reflexivity|]. split; [reflexivity|].
    simpl. split; [reflexivity|].
    rewrite write_row_unwritable by exact Hw. simpl.
    now rewrite app_assoc.
Qed.

Lemma failed_write_keeps_file_witness :
  (forall o, update_master_log unreadable jan2 (snapshot "42" 230)
               (read_only damaged_log) = Ok o ->
             files_after o = read_only damaged_log) /\
  (forall sid total athletes,
      converts (snapshot "42" 230) sid total athletes ->
      exists o row out,
        update_master_log unreadable jan2 (snapshot "42" 230)
          (read_only damaged_log) = Ok o /\
        new_data_row o = Some row /\
        current_total_attempts row = total /\
        printed o = out ++ [CouldNotWrite]).
Proof.
  apply (@failed_write_keeps_file unreadable jan2 (snapshot "42" 230)
           (read_only damaged_log)).
  reflexivity.
Defined.

(** X9, a log that does not exist yet: when the file is absent, of size zero,
    or holds the header alone, the reader's verdict on other files plays no
    part; the call writes the header followed by the row, the row has daily
    attempts 0, and nothing is printed as a warning. *)
Theorem new_log_gets_header (pandas : list line -> read_result) (today : date)
  (sd : segment_data) (fs : files) (sid total athletes : Z) :
  converts sd sid total athletes ->
  writable fs = true ->
  lines fs = [] \/ lines fs = [Text header] ->
  exists o row,
    update_master_log pandas today sd fs = Ok o /\
    new_data_row o = Some row /\
    daily_attempts_int row = 0 /\
    master_csv (files_after o) = Some [Text header; Data row] /\
    printed o = [].
Proof.
  intros Hc Hw Hl.
  rewrite (update_master_log_converts pandas today fs Hc).
  eexists. eexists. split; [reflexivity|]. split; [reflexivity|]. simpl.
  assert (Hh : history_of pandas sid fs = no_history true []).
  { unfold history_of. unfold lines in Hl.
    destruct (master_csv fs) as [[|l ls]|]; try reflexivity.
    destruct Hl as [Hl|Hl]; [discriminate|]. now rewrite Hl. }
  rewrite Hh. simpl. unfold write_row. rewrite Hw. simpl. repeat split.
Qed.

Lemma new_log_gets_header_witness :
  exists o row,
    update_master_log unreadable jan1 (snapshot "42" 5000) no_log = Ok o /\
    new_data_row o = Some row /\
    daily_attempts_int row = 0 /\
    master_csv (files_after o) = Some [Text header; Data row] /\
    printed o = [].
Proof.
  apply (@new_log_gets_header unreadable jan1 (snapshot "42" 5000) no_log
           42 5000 7).
  - repeat split.
  - reflexivity.
  - now left.
Defined.

Lemma history_of_frame_daily (pandas : list line -> read_result) (sid : Z)
  (fs : files) (content : list line) (df : data_frame) :
  master_csv fs = Some content ->
  read_csv pandas content = Frame df ->
  forall total,
    fst (compute_daily_attempts sid total (history_of pandas sid fs)) =
    match iloc_last (sort_by_date (rows_of_segment sid df)) with
    | None => 0
    | Some e =>
        if has_total_attempts_on_date df && notna (total_attempts_on_date e)
        then match py_int (total_attempts_on_date e) with
             | Ok z => Z.max 0 (total - z)
             | Raise _ => Z.max 0 total
             end
        else Z.max 0 total
    end.
Proof.
  intros Hfs Hread total. unfold history_of. rewrite Hfs.
  destruct content as [|l ls]; [discriminate|].
  unfold read_history. rewrite Hread.
  unfold last_entry, segment_df, rows_of_segment.
  destruct (rows df) as [|r rs]; [reflexivity|].
  destruct (iloc_last (sort_by_date (filter (matches sid) (r :: rs))))
    as [e|]; [|reflexivity].
  assert (Hprev : forall t w,
             fst (compute_daily_attempts sid total (previous_entry e t w)) =
             Z.max 0 (total - t)).
  { intros t w. unfold compute_daily_attempts. simpl.
    destruct (total - t <? 0) eqn:E; simpl;
      [apply Z.ltb_lt in E | apply Z.ltb_ge in E]; lia. }
  destruct (has_total_attempts_on_date df && notna (total_attempts_on_date e)).
  - destruct (py_int (total_attempts_on_date e)); rewrite Hprev;
      [reflexivity | now rewrite Z.sub_0_r].
  - rewrite Hprev. now rewrite Z.sub_0_r.
Qed.

(** X10, segments do not interfere: the row computed for a segment depends on
    the log only through the rows of that segment, in their file order, and
    through the presence of the total column; rows of other segments, added
    or removed anywhere in the file, change nothing in it. *)
Theorem other_segments_do_not_matter (pandas : list line -> read_result)
  (today : date) (sd : segment_data) (fs fs' : files) (sid total athletes : Z)
  (content content' : list line) (df df' : data_frame) :
  converts sd sid total athletes ->
  master_csv fs = Some content ->
  master_csv fs' = Some content' ->
  read_csv pandas content = Frame df ->
  read_csv pandas content' = Frame df' ->
  rows_of_segment sid df = rows_of_segment sid df' ->
  has_total_attempts_on_date df = has_total_attempts_on_date df' ->
  exists o o' row,
    update_master_log pandas today sd fs = Ok o /\
    update_master_log pandas today sd fs' = Ok o' /\
    new_data_row o = Some row /\
    new_data_row o' = Some row.
Proof.
  intros Hc Hfs Hfs' Hread Hread' Hrows Hcol.
  rewrite (update_master_log_converts pandas today fs Hc).
  rewrite (update_master_log_converts pandas today fs' Hc).
  eexists. eexists. eexists.
  split; [reflexivity|]. split; [reflexivity|]. simpl.
  split; [reflexivity|].
  rewrite (history_of_frame_daily pandas sid fs Hfs Hread).
  rewrite (history_of_frame_daily pandas sid fs' Hfs' Hread').
  now rewrite Hrows, Hcol.
Qed.

Lemma other_segments_do_not_matter_witness :
  exists o o' row,
    update_master_log unreadable jan3 (snapshot "42" 137)
      (log_with [logged 7 jan1 5 0; logged 42 jan1 100 0; logged 7 jan2 9 4])
    = Ok o /\
    update_master_log unreadable jan3 (snapshot "42" 137)
      (log_with [logged 42 jan1 100 0; logged 11 jan2 1 0]) = Ok o' /\
    new_data_row o = Some row /\
    new_data_row o' = Some row.
Proof.
  apply (@other_segments_do_not_matter unreadable jan3 (snapshot "42" 137)
           (log_with [logged 7 jan1 5 0; logged 42 jan1 100 0;
                      logged 7 jan2 9 4])
           (log_with [logged 42 jan1 100 0; logged 11 jan2 1 0])
           42 137 7
           (Text header :: map Data [logged 7 jan1 5 0; logged 42 jan1 100 0;
                                     logged 7 jan2 9 4])
           (Text header :: map Data [logged 42 jan1 100 0; logged 11 jan2 1 0])
           {| has_total_attempts_on_date := true;
              has_daily_attempts := true;
              rows := map frame_row_of
                        [logged 7 jan1 5 0; logged 42 jan1 100 0;
                         logged 7 jan2 9 4] |}
           {| has_total_attempts_on_date := true;
              has_daily_attempts := true;
              rows := map frame_row_of
                        [logged 42 jan1 100 0; logged 11 jan2 1 0] |});
    solve [reflexivity | repeat split].
Defined.

(** ** Calls for one segment, day after day *)

Section OneSegment.

Variable pandas : list line -> read_result.

Lemma holds_rows_log_rows (fs : files) (rs : list data_row) :
  holds_rows fs rs ->
  forallb read_back rs = true ->
  log_rows pandas fs = map frame_row_of rs.
Proof.
  unfold holds_rows, log_rows, lines. intros [[Hl ->]|Hl] Hback.
  - destruct (master_csv fs) as [c|]; [subst c|]; reflexivity.
  - destruct (master_csv fs) as [c|]; [subst c|discriminate].
    now rewrite read_csv_own_format.
Qed.

(** The daily attempts computed on a log that knows nothing of the segment,
    or knows a latest row of it. *)
Lemma daily_on_own_format (sid total : Z) (fs : files) (rs : list data_row)
  (last : option Z) (before : date) :
  holds_rows fs rs ->
  forallb read_back rs = true ->
  baseline_is sid last before rs ->
  fst (compute_daily_attempts sid total (history_of pandas sid fs)) =
  match last with
  | None => 0
  | Some p => Z.max 0 (total - p)
  end.
Proof.
  intros Hrs Hback Hb. destruct last as [p|]; simpl in Hb.
  - destruct Hb as (e & Hin & Hseg & Htot & _ & Hlate).
    destruct Hrs as [[_ ->]|Hl]; [destruct Hin|].
    pose proof (lines_master_csv fs Hl) as Hfs.
    pose proof (read_csv_own_format pandas rs Hback) as Hread.
    set (df := {| has_total_attempts_on_date := true;
                  has_daily_attempts := true;
                  rows := map frame_row_of rs |}) in *.
    destruct (@last_entry_latest sid df df (frame_row_of e)) as (e' & Hlast & _ & Ht).
    + simpl. now apply in_map.
    + simpl. now rewrite Hseg.
    + simpl. intros r Hr Hs. apply in_map_iff in Hr.
      destruct Hr as (r0 & <- & Hr0). simpl in Hs. injection Hs as Hs.
      destruct (Hlate r0 Hr0 Hs) as [->|Hlt].
      * right. now split.
      * left. exact Hlt.
    + apply Permutation_refl.
    + simpl in Ht. rewrite <- Htot.
      rewrite (@history_of_baseline pandas sid fs _ df e'
                 (current_total_attempts e) Hfs Hread Hlast eq_refl).
      * apply compute_daily_attempts_previous.
      * now rewrite Ht.
  - rewrite compute_daily_attempts_first; [reflexivity|].
    apply history_of_first. rewrite (holds_rows_log_rows Hrs Hback).
    intros r Hr. apply in_map_iff in Hr. destruct Hr as (r0 & <- & Hr0).
    apply matches_false. simpl. rewrite Forall_forall in Hb.
    intros [= H]. exact (Hb r0 Hr0 H).
Qed.

End OneSegment.

Lemma in_range_converts (sd : segment_data) (sid total athletes : Z) :
  in_range sd ->
  converts sd sid total athletes ->
  int64 sid = true /\ counter total = true /\ counter athletes = true.
Proof.
  intros (sid' & total' & athletes' & (H1 & H2 & H3) & Hr) (H1' & H2' & H3').
  rewrite H1 in H1'. rewrite H2 in H2'. rewrite H3 in H3'.
  injection H1' as <-. injection H2' as <-. injection H3' as <-. exact Hr.
Qed.

(** Calls for one segment on days that follow one another: each row carries
    the growth since the row before. *)
Lemma update_all_one_segment (pandas : list line -> read_result)
  (clock : nat -> date) (sid : Z) (l : list segment_data) :
  (forall i j, (i < j)%nat -> clock i < clock j) ->
  forall (totals : list Z) (k : nat) (fs : files) (rs : list data_row)
         (last : option Z),
    (forall i, (k <= i < k + List.length l)%nat -> timestamp (clock i) = true) ->
    Forall in_range l ->
    Forall2 (fun sd t => exists a, converts sd sid t a) l totals ->
    writable fs = true ->
    holds_rows fs rs ->
    forallb read_back rs = true ->
    baseline_is sid last (clock k) rs ->
    exists fs' out new,
      update_all pandas clock k l fs = (fs', out, None) /\
      holds_rows fs' (rs ++ new) /\
      map current_total_attempts new = totals /\
      map daily_attempts_int new = daily_series last totals /\
      map today_str new = map clock (seq k (List.length l)).
Proof.
  intros Hclock. induction l as [|sd l IH];
    intros totals k fs rs last Hts Hin Hl Hw Hrs Hback Hb.
  - inversion Hl; subst. exists fs, [], []. rewrite app_nil_r.
    repeat split; assumption.
  - inversion Hl as [|? t ? ts (a & Hc) Hl']; subst.
    inversion Hin as [|? ? Hsd Hin']; subst.
    destruct (in_range_converts Hsd Hc) as (Hid & Ht & Ha).
    destruct (@update_own_format pandas (clock k) sd fs sid t a rs Hc Hw Hrs
                Hback) as (o & Ho & Hrow & Hw' & Hfs').
    assert (Hk : timestamp (clock k) = true) by (apply Hts; simpl; lia).
    assert (Hts' : forall i, (S k <= i < S k + List.length l)%nat ->
                             timestamp (clock i) = true)
      by (intros i Hi; apply Hts; simpl; lia).
    pose proof (@new_row_read_back pandas (clock k) (seg_name sd) fs sid t a rs
                  Hrs Hback Hid Ht Ha Hk) as Hnew.
    rewrite (@daily_on_own_format pandas sid t fs rs last (clock k) Hrs Hback
               Hb) in Hrow, Hfs', Hnew.
    set (row := {| segment_id_int := sid;
                   segment_name := seg_name sd;
                   today_str := clock k;
                   current_total_attempts := t;
                   daily_attempts_int :=
                     match last with
                     | Some p => Z.max 0 (t - p)
                     | None => 0
                     end;
                   current_athlete_count := a |}) in *.
    assert (Hrs' : holds_rows (files_after o) (rs ++ [row])).
    { right. unfold lines. now rewrite Hfs'. }
    assert (Hback' : forallb read_back (rs ++ [row]) = true).
    { rewrite forallb_app, Hback. simpl. now rewrite Hnew. }
    assert (Hb' : baseline_is sid (Some t) (clock (S k)) (rs ++ [row])).
    { exists row. repeat split.
      - apply in_or_app. right. now left.
      - apply Hclock. lia.
      - intros r Hr Hs. apply in_app_or in Hr.
        destruct Hr as [Hr|[<-|[]]]; [|now left]. right. simpl.
        destruct last as [p|]; simpl in Hb.
        + destruct Hb as (e & _ & _ & _ & He & Hlate).
          destruct (Hlate r Hr Hs) as [->|Hlt]; lia.
        + rewrite Forall_forall in Hb. now destruct (Hb r Hr). }
    destruct (IH ts (S k) (files_after o) (rs ++ [row]) (Some t)
                Hts' Hin' Hl' Hw' Hrs' Hback' Hb')
      as (fs' & out & new & Hall & Hrs'' & Htot & Hd & Hdates).
    exists fs', (printed o ++ out), (row :: new).
    simpl. rewrite Ho, Hall. rewrite <- app_assoc in Hrs''.
    repeat split; try assumption; simpl; now f_equal.
Qed.

Lemma last_default (x : Z) (l : list Z) (d d' : Z) :
  last (x :: l) d = last (x :: l) d'.
Proof.
  revert x. induction l as [|y l IH]; intros x; [reflexivity|].
  change (last (y :: l) d = last (y :: l) d'). apply IH.
Qed.

Lemma daily_series_sum (p : Z) (totals : list Z) :
  never_decrease p totals ->
  sum_list (daily_series (Some p) totals) = last totals p - p.
Proof.
  revert p. induction totals as [|t ts IH]; intros p.
  - simpl. lia.
  - intros [Hp Hts].
    change (Z.max 0 (t - p) + sum_list (daily_series (Some t) ts)
            = last (t :: ts) p - p).
    rewrite (IH t Hts). destruct ts as [|t' ts].
    + simpl. lia.
    + change (last (t :: t' :: ts) p) with (last (t' :: ts) p).
      rewrite (last_default t' ts t p). lia.
Qed.

(** X11, the days add up: for a log that can be written and is absent,
    empty or in the program's format, that holds no row of a segment, and
    with identifiers, counters and dates that the library holds as written
    (in the rows of the log, in the snapshots and on the clock), a run of
    calls for that segment on days that follow one another returns every
    time; the log gains one row per call, the first with daily attempts 0
    and each later one with the growth of the cumulative count since the
    call before (0 if it went down); and when the count never goes down, the
    daily attempts of the new rows add up to the last count minus the
    first. *)
Theorem daily_attempts_add_up (pandas : list line -> read_result)
  (clock : nat -> date) (sid : Z) (l : list segment_data) (totals : list Z)
  (fs : files) (rs : list data_row) :
  (forall i j, (i < j)%nat -> clock i < clock j) ->
  (forall i, (i < List.length l)%nat -> timestamp (clock i) = true) ->
  Forall in_range l ->
  Forall2 (fun sd t => exists a, converts sd sid t a) l totals ->
  writable fs = true ->
  holds_rows fs rs ->
  forallb read_back rs = true ->
  Forall (fun r => segment_id_int r <> sid) rs ->
  exists fs' out new,
    update_all pandas clock 0 l fs = (fs', out, None) /\
    records (lines fs') = rs ++ new /\
    map current_total_attempts new = totals /\
    map daily_attempts_int new = daily_series None totals /\
    map today_str new = map clock (seq 0 (List.length l)) /\
    (forall first rest,
        totals = first :: rest -> never_decrease first rest ->
        sum_list (map daily_attempts_int new) = last rest first - first).
Proof.
  intros Hclock Hts Hin Hl Hw Hrs Hback Hnone.
  destruct (@update_all_one_segment pandas clock sid l Hclock totals 0%nat
              fs rs None (fun i Hi => Hts i (proj2 Hi)) Hin Hl Hw Hrs Hback
              Hnone)
    as (fs' & out & new & Hall & Hrs' & Htot & Hd & Hdates).
  exists fs', out, new. repeat split; try assumption.
  - now apply holds_rows_records.
  - intros first rest -> Hmono. rewrite Hd. simpl.
    now rewrite daily_series_sum.
Qed.

Lemma daily_attempts_add_up_witness :
  exists fs' out new,
    update_all unreadable day_after_day 0
      [snapshot "42" 100; snapshot "42" 137; snapshot "42" 150]
      (log_with [logged 7 jan1 5 0]) = (fs', out, None) /\
    records (lines fs') = [logged 7 jan1 5 0] ++ new /\
    map current_total_attempts new = [100; 137; 150] /\
    map daily_attempts_int new = daily_series None [100; 137; 150] /\
    map today_str new = map day_after_day (seq 0 3) /\
    (forall first rest,
        [100; 137; 150] = first :: rest -> never_decrease first rest ->
        sum_list (map daily_attempts_int new) = last rest first - first).
Proof.
  apply (@daily_attempts_add_up unreadable day_after_day 42
           [snapshot "42" 100; snapshot "42" 137; snapshot "42" 150]
           [100; 137; 150] (log_with [logged 7 jan1 5 0])
           [logged 7 jan1 5 0]).
  - intros i j H. unfold day_after_day. lia.
  - intros [|[|[|i]]] Hi; [reflexivity.. | simpl in Hi; lia].
  - repeat constructor; [exists 42, 100, 7 | exists 42, 137, 7
                         | exists 42, 150, 7]; repeat split.
  - repeat constructor; exists 7; repeat split.
  - reflexivity.
  - right. reflexivity.
  - reflexivity.
  - constructor; [simpl; lia | constructor].
Defined.

(** X12, two calls on one day: when a log that can be written is absent,
    empty or in the program's format, its rows for a segment are all dated
    before today, and the identifiers, counters and dates (of the rows, of
    the two snapshots and of today) are held as written by the library, two
    calls for the segment on that day leave two rows dated today, and the
    second row's daily attempts are counted from the first call's cumulative
    count, not from the day before. *)
Theorem second_call_same_day (pandas : list line -> read_result)
  (today : date) (sd1 sd2 : segment_data) (fs : files)
  (sid t1 a1 t2 a2 : Z) (rs : list data_row) :
  converts sd1 sid t1 a1 ->
  converts sd2 sid t2 a2 ->
  in_range sd1 ->
  in_range sd2 ->
  timestamp today = true ->
  writable fs = true ->
  holds_rows fs rs ->
  forallb read_back rs = true ->
  (forall r, In r rs -> segment_id_int r = sid -> today_str r < today) ->
  exists fs' out row1 row2,
    update_all pandas (fun _ => today) 0 [sd1; sd2] fs = (fs', out, None) /\
    records (lines fs') = rs ++ [row1; row2] /\
    today_str row1 = today /\ today_str row2 = today /\
    current_total_attempts row1 = t1 /\
    current_total_attempts row2 = t2 /\
    daily_attempts_int row2 = Z.max 0 (t2 - t1).
Proof.
  intros Hc1 Hc2 Hr1 Hr2 Hts Hw Hrs Hback Hold.
  destruct (in_range_converts Hr1 Hc1) as (Hid & Ht1 & Ha1).
  destruct (@update_own_format pandas today sd1 fs sid t1 a1 rs Hc1 Hw Hrs
              Hback) as (o1 & Ho1 & Hrow1 & Hw1 & Hfs1).
  pose proof (@new_row_read_back pandas today (seg_name sd1) fs sid t1 a1 rs
                Hrs Hback Hid Ht1 Ha1 Hts) as Hnew.
  set (row1 := {| segment_id_int := sid;
                  segment_name := seg_name sd1;
                  today_str := today;
                  current_total_attempts := t1;
                  daily_attempts_int :=
                    fst (compute_daily_attempts sid t1
                           (history_of pandas sid fs));
                  current_athlete_count := a1 |}) in *.
  assert (Hrs1 : holds_rows (files_after o1) (rs ++ [row1])).
  { right. unfold lines. now rewrite Hfs1. }
  assert (Hback1 : forallb read_back (rs ++ [row1]) = true).
  { rewrite forallb_app, Hback. simpl. now rewrite Hnew. }
  assert (Hb1 : baseline_is sid (Some t1) (today + 1) (rs ++ [row1])).
  { exists row1. repeat split.
    - apply in_or_app. right. now left.
    - simpl. lia.
    - intros r Hr Hs. apply in_app_or in Hr.
      destruct Hr as [Hr|[<-|[]]]; [|now left]. right. simpl.
      now apply Hold. }
  destruct (@update_own_format pandas today sd2 (files_after o1) sid t2 a2
              (rs ++ [row1]) Hc2 Hw1 Hrs1 Hback1)
    as (o2 & Ho2 & Hrow2 & Hw2 & Hfs2).
  rewrite (@daily_on_own_format pandas sid t2 (files_after o1) (rs ++ [row1])
             (Some t1) (today + 1) Hrs1 Hback1 Hb1) in Hrow2, Hfs2.
  eexists. eexists. exists row1. eexists.
  simpl. rewrite Ho1, Ho2. split; [reflexivity|].
  unfold lines. rewrite Hfs2. simpl.
  rewrite records_data, <- app_assoc. simpl.
  repeat split.
Qed.

Lemma second_call_same_day_witness :
  exists fs' out row1 row2,
    update_all unreadable (fun _ => jan2) 0
      [snapshot "42" 137; snapshot "42" 150]
      (log_with [logged 42 jan1 100 0]) = (fs', out, None) /\
    records (lines fs') = [logged 42 jan1 100 0] ++ [row1; row2] /\
    today_str row1 = jan2 /\ today_str row2 = jan2 /\
    current_total_attempts row1 = 137 /\
    current_total_attempts row2 = 150 /\
    daily_attempts_int row2 = Z.max 0 (150 - 137).
Proof.
  apply (@second_call_same_day unreadable jan2 (snapshot "42" 137)
           (snapshot "42" 150) (log_with [logged 42 jan1 100 0])
           42 137 7 150 7 [logged 42 jan1 100 0]).
  - repeat split.
  - repeat split.
  - exists 42, 137, 7. repeat split.
  - exists 42, 150, 7. repeat split.
  - reflexivity.
  - reflexivity.
  - right. reflexivity.
  - reflexivity.
  - intros r [<-|[]] _. reflexivity.
Defined.

(** ** More on the renderer *)

Section MoreOnRenderer.

Variable pandas : list line -> read_result.


(** The chart of a segment that has rows in a frame with the daily column. *)
Lemma generate_plot_frame (seg : pyval) (name : string) (fs : files)
  (content : list line) (df : data_frame) (sid : Z) :
  master_csv fs = Some content ->
  read_csv pandas content = Frame df ->
  py_int seg = Ok sid ->
  has_daily_attempts df = true ->
  rows_of_segment sid df <> [] ->
  exists first rest,
    sort_by_date (rows_of_segment sid df) = first :: rest /\
    generate_plot pandas seg name fs =
    (Some {| plot_segment_id := seg;
             plot_segment_name := name;
             df_to_plot := (date_ first - 1, 0) :: map point (first :: rest) |},
     []).
Proof.
  intros Hfs Hread Hid Hcol Hne. unfold rows_of_segment in *.
  pose proof (sort_by_date_perm (filter (matches sid) (rows df))) as Hperm.
  pose proof (sort_by_date_sorted (filter (matches sid) (rows df))) as Hsorted.
  unfold generate_plot. rewrite Hfs, Hread, Hid, Hcol. simpl.
  destruct (filter (matches sid) (rows df)) as [|y ys]; [contradiction|].
  destruct (sort_by_date (y :: ys)) as [|first rest].
  - apply Permutation_nil in Hperm. discriminate.
  - exists first, rest. now rewrite (index_min_sorted Hsorted).
Qed.

(** A chart comes only from a readable log with rows of the segment. *)
Lemma generate_plot_chart (seg : pyval) (name : string) (fs : files)
  (c : chart) (out : list diag) :
  generate_plot pandas seg name fs = (Some c, out) ->
  exists content df sid,
    master_csv fs = Some content /\
    read_csv pandas content = Frame df /\
    py_int seg = Ok sid /\
    has_daily_attempts df = true /\
    rows_of_segment sid df <> [].
Proof.
  unfold generate_plot, rows_of_segment.
  destruct (master_csv fs) as [content|] eqn:Hfs; [|discriminate].
  destruct (read_csv pandas content) as [| | |df] eqn:Hread; try discriminate.
  destruct (py_int seg) as [sid|] eqn:Hid; [|discriminate].
  destruct (filter (matches sid) (rows df)) as [|y ys] eqn:E; [discriminate|].
  destruct (has_daily_attempts df) eqn:Hcol; [|discriminate].
  intros _. exists content, df, sid. rewrite E.
  repeat split; try assumption. discriminate.
Qed.

End MoreOnRenderer.


(** X14, the shape of every chart: whenever [generate_plot] returns a chart
    it prints no warning, the chart bears the identifier and the name it was
    asked for, its series starts with a point of value 0 followed by at least
    one row of the segment, the first row is dated exactly one day after that
    point, and every row is dated after it. *)
Theorem chart_shape (pandas : list line -> read_result) (seg : pyval)
  (name : string) (fs : files) (c : chart) (out : list diag) :
  generate_plot pandas seg name fs = (Some c, out) ->
  out = [] /\
  plot_segment_id c = seg /\
  plot_segment_name c = name /\
  exists d p rest,
    df_to_plot c = (d, 0) :: p :: rest /\
    fst p = d + 1 /\
    Forall (fun q => d < fst q) (p :: rest).
Proof.
  intros H.
  destruct (generate_plot_chart pandas seg name fs H)
    as (content & df & sid & Hfs & Hread & Hid & Hcol & Hne).
  destruct (@generate_plot_frame pandas seg name fs content df sid
              Hfs Hread Hid Hcol Hne) as (first & rest & Hsort & Hplot).
  rewrite Hplot in H. injection H as <- <-.
  repeat split. exists (date_ first - 1), (point first), (map point rest).
  simpl. split; [reflexivity|]. split; [lia|].
  pose proof (sort_by_date_sorted (rows_of_segment sid df)) as Hsorted.
  rewrite Hsort in Hsorted. inversion Hsorted as [|? ? _ Hall]; subst.
  constructor; [simpl; lia|].
  rewrite Forall_map. eapply Forall_impl; [|exact Hall].
  unfold date_le. intros a Ha. simpl. lia.
Qed.

Lemma chart_shape_witness :
  let c := {| plot_segment_id := PyStr "42";
              plot_segment_name := "Col";
              df_to_plot := [(jan1, 0); (jan2, 8); (jan3, 6)] |} in
  @nil diag = [] /\
  plot_segment_id c = PyStr "42" /\
  plot_segment_name c = "Col" /\
  exists d p rest,
    df_to_plot c = (d, 0) :: p :: rest /\
    fst p = d + 1 /\
    Forall (fun q => d < fst q) (p :: rest).
Proof.
  intros c.
  apply (@chart_shape unreadable (PyStr "42") "Col"
           (log_with [logged 42 jan3 31 6; logged 7 jan2 3 0;
                      logged 42 jan2 25 8]) c []).
  reflexivity.
Defined.



(** ** More on the run *)

Section MoreOnRun.

Variable pandas : list line -> read_result.
Variable api : string -> response.

Lemma update_master_log_returns (today : date) (sd : segment_data)
  (fs : files) :
  never_raises sd -> exists o, update_master_log pandas today sd fs = Ok o.
Proof.
  intros [[e He]|(sid & total & athletes & Hc)].
  - eexists. unfold update_master_log. now rewrite He.
  - eexists. apply (update_master_log_converts pandas today fs Hc).
Qed.

Lemma update_all_returns (clock : nat -> date) (l : list segment_data) :
  forall (k : nat) (fs : files),
    Forall never_raises l ->
    exists fs' out, update_all pandas clock k l fs = (fs', out, None).
Proof.
  induction l as [|sd l IH]; intros k fs Hl.
  - now exists fs, [].
  - inversion Hl as [|? ? Hsd Hl']; subst.
    destruct (update_master_log_returns (clock k) fs Hsd) as [o Ho].
    destruct (IH (S k) (files_after o) Hl') as (fs' & out & Hall).
    exists fs', (printed o ++ out). simpl. now rewrite Ho, Hall.
Qed.

Lemma filter_none (f : string -> bool) (l : list string) :
  (forall s, In s l -> f s = false) -> filter f l = [].
Proof.
  induction l as [|s l IH]; intros H; [reflexivity|]. simpl.
  rewrite (H s (or_introl eq_refl)). apply IH.
  intros s' Hs'. apply H. now right.
Qed.

Lemma filter_partition_length (f : string -> bool) (l : list string) :
  (List.length (filter f l) + List.length (filter (fun s => negb (f s)) l)
   = List.length l)%nat.
Proof.
  induction l as [|s l IH]; simpl; [reflexivity|].
  destruct (f s); simpl; lia.
Qed.

Lemma fetched_data_nil (ids : list string) :
  (forall s, In s ids -> answered api s = false) -> fetched_data api ids = [].
Proof.
  induction ids as [|s ids IH]; intros H; simpl; [reflexivity|].
  assert (Hs : answered api s = false) by (apply H; now left).
  unfold answered in Hs. unfold get_segment_data.
  destruct (api s); try discriminate; simpl; apply IH;
    intros s' Hs'; apply H; now right.
Qed.

Lemma update_all_app (clock : nat -> date) (l1 l2 : list segment_data) :
  forall (k : nat) (fs fs1 : files) (out1 : list diag),
    update_all pandas clock k l1 fs = (fs1, out1, None) ->
    update_all pandas clock k (l1 ++ l2) fs =
    let '(fs2, out2, e) :=
      update_all pandas clock (k + List.length l1) l2 fs1 in
    (fs2, out1 ++ out2, e).
Proof.
  induction l1 as [|sd l1 IH]; intros k fs fs1 out1; simpl.
  - intros [= <- <-]. rewrite Nat.add_0_r.
    now destruct (update_all pandas clock k l2 fs) as [[fs2 out2] e].
  - destruct (update_master_log pandas (clock k) sd fs) as [o|]; [|discriminate].
    destruct (update_all pandas clock (S k) l1 (files_after o))
      as [[fs' out'] e'] eqn:E.
    intros [= <- <- ->]. rewrite (IH _ _ _ _ E).
    replace (S k + List.length l1)%nat with (k + S (List.length l1))%nat by lia.
    destruct (update_all pandas clock (k + S (List.length l1)) l2 fs')
      as [[fs2 out2] e2].
    now rewrite app_assoc.
Qed.

End MoreOnRun.

(** X16, a run in which every fetch fails: the log is left as it was, no
    chart is made, the exit status is 0, and the summary reports no segment
    processed and every configured one failed. *)
Theorem no_fetch_no_update (pandas : list line -> read_result)
  (api : string -> response) (ids : list string) (clock : nat -> date)
  (fs : files) :
  (forall s, In s ids -> answered api s = false) ->
  let r := main pandas api ids clock fs in
  exit_status r = 0 /\
  files_end r = fs /\
  charts r = [] /\
  exists out,
    stdout r = out ++ [NoSegmentDataFetched; Summary 0 (List.length ids)].
Proof.
  intros H. destruct (fetch_all_spec api ids) as (Ha & Hp & He).
  pose proof (filter_none (answered api) ids H) as Hnone.
  pose proof (filter_partition_length (answered api) ids) as Hlen.
  rewrite Hnone in Hlen, Hp. simpl in Hlen, Hp.
  unfold main. rewrite Ha, (fetched_data_nil api ids H), Hp, He.
  unfold failed. rewrite Hlen. simpl. repeat split.
  now exists (fetch_printed (fetch_all api ids)).
Qed.

Lemma no_fetch_no_update_witness :
  let r := main unreadable all_fail ["1"; "2"; "3"] (fun _ => jan2)
             damaged_log in
  exit_status r = 0 /\
  files_end r = damaged_log /\
  charts r = [] /\
  exists out, stdout r = out ++ [NoSegmentDataFetched; Summary 0 3].
Proof.
  apply (@no_fetch_no_update unreadable all_fail ["1"; "2"; "3"]
           (fun _ => jan2) damaged_log).
  intros s _. reflexivity.
Defined.

(** X17, every identifier is counted once: after the fetch loop the number
    of segments processed plus the number failed is the number configured;
    the snapshots kept are those of the identifiers that were answered, in
    the order of the configuration, each under the identifier it was asked
    with. *)
Theorem every_id_counted_once (api : string -> response) (ids : list string) :
  (processed_count (fetch_all api ids) + error_count (fetch_all api ids)
   = List.length ids)%nat /\
  List.length (all_segment_data_current (fetch_all api ids))
  = processed_count (fetch_all api ids) /\
  map seg_id (all_segment_data_current (fetch_all api ids))
  = map PyStr (filter (answered api) ids).
Proof.
  destruct (fetch_all_spec api ids) as (Ha & Hp & He).
  rewrite Ha, Hp, He. split; [|split].
  - apply filter_partition_length.
  - rewrite <- (length_map seg_id), fetched_data_ids. apply length_map.
  - apply fetched_data_ids.
Qed.

(** X18, the log cannot fail the run: whatever the log file holds, whatever
    the reader makes of it and whether or not it can be written, a run whose
    answers carry a string for a name, or no name, and counters that convert
    (or come under an identifier that does not) ends with exit status 0 and
    prints the summary last. *)
Theorem run_survives_any_log (pandas : list line -> read_result)
  (api : string -> response) (ids : list string) (clock : nat -> date)
  (fs : files) :
  Forall never_raises (fetched_data api ids) ->
  let r := main pandas api ids clock fs in
  exit_status r = 0 /\
  exists out,
    stdout r = out ++ [Summary (List.length (filter (answered api) ids))
                               (List.length (filter (failed api) ids))].
Proof.
  intros Hl. destruct (fetch_all_spec api ids) as (Ha & Hp & He).
  unfold main. rewrite Ha, Hp, He.
  destruct (fetched_data api ids) as [|sd l] eqn:Hfd.
  - simpl. split; [reflexivity|].
    exists (fetch_printed (fetch_all api ids) ++ [NoSegmentDataFetched]).
    now rewrite <- app_assoc.
  - destruct (update_all_returns pandas clock 0%nat fs Hl) as (fs' & out & Hall).
    rewrite Hall.
    destruct (plot_all pandas (sd :: l) fs') as [cs out_plots].
    simpl. split; [reflexivity|].
    exists (fetch_printed (fetch_all api ids) ++ out ++ out_plots).
    now rewrite <- !app_assoc.
Qed.

Lemma run_survives_any_log_witness :
  let r := main unreadable second_fails ["1"; "2"; "3"] (fun _ => jan2)
             (read_only damaged_log) in
  exit_status r = 0 /\
  exists out, stdout r = out ++ [Summary 2 1].
Proof.
  apply (@run_survives_any_log unreadable second_fails ["1"; "2"; "3"]
           (fun _ => jan2) (read_only damaged_log)).
  constructor; [|constructor; [|constructor]]; right.
  - exists 1, 150, 7. repeat split.
  - exists 3, 150, 7. repeat split.
Defined.

Lemma update_master_log_bad_counter (pandas : list line -> read_result)
  (today : date) (sd : segment_data) (fs : files) (e : exn) :
  bad_counter sd e -> update_master_log pandas today sd fs = Raise e.
Proof.
  intros ((sid & Hid) & [He|((total & Ht) & Ha)]); unfold update_master_log;
    rewrite Hid.
  - now rewrite He.
  - now rewrite Ht, Ha.
Qed.

(** X19, a counter that is not a number: when the identifier of a fetched
    snapshot converts and one of its counters does not, while the log can be
    written, the snapshots fetched before it convert and each of their calls
    finds a log that it extends (absent, empty, the header alone, or read as
    a frame with a row or with a [KeyError]), the exception escapes; the run
    ends there with exit status 1 and no chart, the rows of the snapshots
    before it follow the rows that the log held, and no row is written for
    it or for those after it. *)
Theorem bad_counter_stops_run (pandas : list line -> read_result)
  (api : string -> response) (ids : list string) (clock : nat -> date)
  (fs : files) (good rest : list segment_data) (bad : segment_data)
  (e : exn) :
  fetched_data api ids = good ++ bad :: rest ->
  Forall convertible good ->
  bad_counter bad e ->
  writable fs = true ->
  each_call_appends pandas clock 0 good fs ->
  let r := main pandas api ids clock fs in
  exit_status r = 1 /\
  charts r = [] /\
  exists new,
    records (lines (files_end r)) = records (lines fs) ++ new /\
    Forall2 (fun sd row => py_int (seg_id sd) = Ok (segment_id_int row))
      good new.
Proof.
  intros Hfd Hgood Hbad Hw Hr.
  destruct (fetch_all_spec api ids) as (Ha & _ & _).
  destruct (@update_all_appends pandas clock good 0%nat fs Hgood Hw Hr)
    as (fs1 & out1 & new & Hall & _ & Hids & Hlines).
  pose proof (update_all_app pandas clock good (bad :: rest) 0%nat fs Hall)
    as Happ.
  simpl in Happ.
  rewrite (update_master_log_bad_counter pandas _ fs1 Hbad) in Happ.
  unfold main. rewrite Ha, Hfd, Happ.
  destruct (good ++ bad :: rest) as [|x xs] eqn:E;
    [now destruct good|].
  simpl. split; [reflexivity|]. split; [reflexivity|].
  exists new. split; [|exact Hids].
  rewrite Hlines. destruct good as [|g good'].
  - inversion Hids; subst. now rewrite app_nil_r.
  - destruct (with_header_prefix (lines fs)) as (prefix & Hp & Hrp & _).
    now rewrite Hp, !records_app, Hrp, records_data, app_nil_r.
Qed.

Lemma bad_counter_stops_run_witness :
  let r := main unreadable second_garbled ["1"; "2"; "3"] (fun _ => jan2)
             (log_with [logged 1 jan1 100 0]) in
  exit_status r = 1 /\
  charts r = [] /\
  exists new,
    records (lines (files_end r)) =
      records (lines (log_with [logged 1 jan1 100 0])) ++ new /\
    Forall2 (fun sd row => py_int (seg_id sd) = Ok (segment_id_int row))
      [snapshot "1" 150] new.
Proof.
  apply (@bad_counter_stops_run unreadable second_garbled ["1"; "2"; "3"]
           (fun _ => jan2) (log_with [logged 1 jan1 100 0])
           [snapshot "1" 150] [snapshot "3" 150]
           {| seg_id := PyStr "2"; seg_name := "Col";
              effort_count := PyStr "n/a"; athlete_count := PyInt 0 |}
           ValueError).
  - reflexivity.
  - constructor; [|constructor]. exists 1, 150, 7. repeat split.
  - split; [now exists 2 | now left].
  - reflexivity.
  - split; [right; right; reflexivity | exact I].
Defined.

(** X20, answers without counters: a segment whose identifier converts and
    whose answer lacks the counters (or gives null, 0 or an empty string for
    them) is still logged; its row carries the identifier read from the
    configuration, cumulative attempts 0 and athlete count 0, and the name
    of the answer (a string) or, without one, the name made from the
    identifier; and the row is the last line of the file after the call
    when the file can be written. *)
Theorem missing_counters_logged_as_zero (pandas : list line -> read_result)
  (api : string -> response) (today : date) (fs : files) (s : string)
  (sid : Z) (name : option string) (efforts athletes : option pyval) :
  api s = Answer name efforts athletes ->
  int_of_string s = Some sid ->
  no_count efforts ->
  no_count athletes ->
  exists sd o row,
    get_segment_data api s = Ok (Some sd) /\
    update_master_log pandas today sd fs = Ok o /\
    new_data_row o = Some row /\
    segment_id_int row = sid /\
    current_total_attempts row = 0 /\
    current_athlete_count row = 0 /\
    segment_name row = default name (String.append "Unknown Segment " s) /\
    (writable fs = true -> persisted (files_after o) row).
Proof.
  intros Hapi Hid He Ha. unfold get_segment_data. rewrite Hapi.
  eexists. eexists. eexists. split; [reflexivity|].
  assert (Hz : forall v, no_count v ->
                         py_int (or_zero (default v (PyInt 0))) = Ok 0).
  { intros [x|] Hv; [|reflexivity]. simpl. unfold or_zero.
    now rewrite (Hv x eq_refl). }
  rewrite (@update_master_log_converts pandas today _ fs sid 0 0).
  - split; [reflexivity|]. simpl.
    split; [reflexivity|]. split; [reflexivity|]. split; [reflexivity|].
    split; [reflexivity|]. split; [reflexivity|].
    intros Hw. now apply write_row_persisted.
  - unfold converts. simpl. rewrite Hid, (Hz _ He), (Hz _ Ha). repeat split.
Qed.

Lemma missing_counters_logged_as_zero_witness :
  exists sd o row,
    get_segment_data bare_answers "229781" = Ok (Some sd) /\
    update_master_log unreadable jan1 sd no_log = Ok o /\
    new_data_row o = Some row /\
    segment_id_int row = 229781 /\
    current_total_attempts row = 0 /\
    current_athlete_count row = 0 /\
    segment_name row =
      default None (String.append "Unknown Segment " "229781") /\
    (writable no_log = true -> persisted (files_after o) row).
Proof.
  apply (@missing_counters_logged_as_zero unreadable bare_answers jan1 no_log
           "229781" 229781 None None None);
    solve [reflexivity | intros x; discriminate].
Defined.

(** ** The whole program *)

(** X21, the exit status of the program: with a configuration that loads, a
    token that is granted and fetched snapshots that raise nothing, the
    program ends with status 0; and it ends with status 0, or leaves a log
    other than the one it found, only if the configuration loaded and the
    token was granted. *)
Theorem tracker_exit_status (env : environ) (file : config_file)
  (auth : string -> string -> string -> token_answer)
  (pandas : list line -> read_result) (api : string -> string -> response)
  (clock : nat -> date) (fs : files) :
  (forall c token,
      load_config env file = inr c ->
      auth (client_id c) (client_secret c) (refresh_token c)
      = TokenReply (Some token) ->
      Forall never_raises (fetched_data (api token) (segment_id_list c)) ->
      status (tracker env file auth pandas api clock fs) = 0) /\
  (status (tracker env file auth pandas api clock fs) = 0 \/
   log_left fs (tracker env file auth pandas api clock fs) <> fs ->
   exists c token,
     load_config env file = inr c /\
     auth (client_id c) (client_secret c) (refresh_token c)
     = TokenReply (Some token)).
Proof.
  split.
  - intros c token Hc Ht Hl. unfold tracker, refresh_access_token.
    rewrite Hc, Ht. simpl.
    destruct (fetch_all_spec (api token) (segment_id_list c)) as (Ha & _ & _).
    unfold main. rewrite Ha.
    destruct (fetched_data (api token) (segment_id_list c)) as [|sd l];
      [reflexivity|].
    destruct (update_all_returns pandas clock 0%nat fs Hl)
      as (fs' & out & Hall).
    rewrite Hall. now destruct (plot_all pandas (sd :: l) fs').
  - unfold tracker, refresh_access_token.
    destruct (load_config env file) as [err|c]; simpl.
    + intros [H|H]; [discriminate | now elim H].
    + destruct (auth (client_id c) (client_secret c) (refresh_token c))
        as [|[token|]] eqn:Ht; simpl.
      * intros [H|H]; [discriminate | now elim H].
      * intros _. now exists c, token.
      * intros [H|H]; [discriminate | now elim H].
Qed.

Lemma tracker_exit_status_witness :
  status (tracker full_environ NoConfigFile (grants "t0k3n") unreadable
            (fun _ => second_fails) (fun _ => jan2) no_log) = 0.
Proof.
  apply (proj1 (tracker_exit_status full_environ NoConfigFile (grants "t0k3n")
                  unreadable (fun _ => second_fails) (fun _ => jan2) no_log)
           {| client_id := "1234"; client_secret := "s3cret";
              refresh_token := "r3fresh";
              segment_id_list := ["229781"; "7"; "12"] |} "t0k3n").
  - reflexivity.
  - reflexivity.
  - constructor; [|constructor; [|constructor; [|constructor]]]; right.
    + exists 229781, 150, 7. repeat split.
    + exists 7, 150, 7. repeat split.
    + exists 12, 150, 7. repeat split.
Defined.

(** ** The quoted name *)

Lemma unescape_escape (l : list ascii) :
  unescape_quotes (escape_quotes l) = l.
Proof.
  induction l as [|c l IH]; [reflexivity|]. simpl.
  destruct (Ascii.eqb c dquote) eqn:E.
  - apply Ascii.eqb_eq in E. subst c. simpl. now rewrite IH.
  - destruct (escape_quotes l) as [|d m] eqn:El.
    + destruct l as [|x l]; [reflexivity|]. simpl in El.
      destruct (Ascii.eqb x dquote); discriminate.
    + simpl. rewrite E. simpl. simpl in IH. now rewrite IH.
Qed.

Lemma count_escape (l : list ascii) :
  count_occ ascii_dec (escape_quotes l) dquote =
  (2 * count_occ ascii_dec l dquote)%nat.
Proof.
  induction l as [|c l IH]; [reflexivity|]. simpl.
  destruct (Ascii.eqb c dquote) eqn:E.
  - apply Ascii.eqb_eq in E. subst c.
    rewrite !count_occ_cons_eq by reflexivity.
    destruct (ascii_dec dquote dquote); [|contradiction]. lia.
  - apply Ascii.eqb_neq in E.
    rewrite count_occ_cons_neq by exact E.
    destruct (ascii_dec c dquote); [contradiction | exact IH].
Qed.

(** X22, the quoted name: two names never share a quoted field, and a quoted
    field holds an even number of quote characters (each quote of the name
    twice, and the two around it), so the text of a row stays balanced
    whatever the name of the segment. *)
Theorem quoted_segment_name_faithful (a b : string) :
  (quoted_segment_name a = quoted_segment_name b -> a = b) /\
  exists n,
    count_occ ascii_dec (list_ascii_of_string (quoted_segment_name a)) dquote
    = (2 * n)%nat.
Proof.
  unfold quoted_segment_name. split.
  - intros H.
    apply (f_equal list_ascii_of_string) in H.
    rewrite !list_ascii_of_string_of_list_ascii in H.
    injection H as H. apply app_inj_tail in H. destruct H as [H _].
    apply (f_equal unescape_quotes) in H. rewrite !unescape_escape in H.
    rewrite <- (string_of_list_ascii_of_string a).
    rewrite <- (string_of_list_ascii_of_string b). now rewrite H.
  - exists (S (count_occ ascii_dec (list_ascii_of_string a) dquote)).
    rewrite list_ascii_of_string_of_list_ascii.
    rewrite count_occ_cons_eq by reflexivity.
    rewrite count_occ_app, count_escape. simpl.
    destruct (ascii_dec dquote dquote); [|contradiction]. lia.
Qed.

(** ** What a run keeps *)

Section Kept.

Variable pandas : list line -> read_result.

Lemma update_master_log_read_only (today : date) (sd : segment_data)
  (fs : files) (o : outcome) :
  writable fs = false ->
  update_master_log pandas today sd fs = Ok o ->
  files_after o = fs.
Proof.
  intros Hw. unfold update_master_log.
  destruct (py_int (seg_id sd)) as [sid|]; [|now intros [= <-]].
  destruct (py_int (or_zero (effort_count sd))) as [total|]; [|discriminate].
  destruct (py_int (or_zero (athlete_count sd))) as [athletes|];
    [|discriminate].
  simpl. destruct (compute_daily_attempts _ _ _) as [daily w].
  rewrite write_row_unwritable by exact Hw. now intros [= <-].
Qed.

(** A call that returns leaves a log in the program's format in that format,
    with at most one row more. *)
Lemma update_master_log_keeps_format (today : date) (sd : segment_data)
  (fs : files) (rs : list data_row) (o : outcome) :
  holds_rows fs rs ->
  update_master_log pandas today sd fs = Ok o ->
  exists rs',
    holds_rows (files_after o) rs' /\
    (List.length rs' <= S (List.length rs))%nat.
Proof.
  intros Hrs Ho.
  destruct (writable fs) eqn:Hw.
  - destruct (py_int (seg_id sd)) as [sid|e] eqn:Hid.
    + destruct (py_int (or_zero (effort_count sd))) as [total|e] eqn:Ht.
      * destruct (py_int (or_zero (athlete_count sd))) as [athletes|e] eqn:Ha.
        -- assert (Hc : converts sd sid total athletes)
             by (repeat split; assumption).
           rewrite (update_master_log_converts pandas today fs Hc) in Ho.
           injection Ho as <-. simpl. unfold write_row. rewrite Hw. simpl.
           destruct (file_is_empty (history_of pandas sid fs)
                     || negb (file_exists fs)) eqn:Hb.
           ++ eexists [_]. split; [right; reflexivity | simpl; lia].
           ++ destruct Hrs as [[Hl _]|Hl].
              ** exfalso. unfold lines in Hl.
                 unfold history_of, file_exists in Hb.
                 destruct (master_csv fs) as [c|]; [subst c|]; discriminate.
              ** exists (rs ++ [{| segment_id_int := sid;
                                   segment_name := seg_name sd;
                                   today_str := today;
                                   current_total_attempts := total;
                                   daily_attempts_int :=
                                     fst (compute_daily_attempts sid total
                                            (history_of pandas sid fs));
                                   current_athlete_count := athletes |}]).
                 split.
                 --- right. unfold lines at 1. simpl. rewrite Hl. simpl.
                     now rewrite map_app.
                 --- rewrite length_app. simpl. lia.
        -- unfold update_master_log in Ho. rewrite Hid, Ht, Ha in Ho.
           discriminate.
      * unfold update_master_log in Ho. rewrite Hid, Ht in Ho. discriminate.
    + unfold update_master_log in Ho. rewrite Hid in Ho.
      injection Ho as <-. exists rs. simpl. split; [assumption | lia].
  - rewrite (@update_master_log_read_only today sd fs o Hw Ho).
    exists rs. split; [assumption | lia].
Qed.

Lemma update_all_keeps_format (clock : nat -> date) (l : list segment_data) :
  forall (k : nat) (fs : files) (rs : list data_row),
    holds_rows fs rs ->
    exists rs',
      holds_rows (fst (fst (update_all pandas clock k l fs))) rs' /\
      (List.length rs' <= List.length rs + List.length l)%nat.
Proof.
  induction l as [|sd l IH]; intros k fs rs Hrs; simpl.
  - exists rs. split; [assumption | lia].
  - destruct (update_master_log pandas (clock k) sd fs) as [o|e] eqn:Ho.
    + destruct (@update_master_log_keeps_format (clock k) sd fs rs o Hrs Ho)
        as (rs1 & Hrs1 & Hlen1).
      destruct (IH (S k) (files_after o) rs1 Hrs1) as (rs2 & Hrs2 & Hlen2).
      destruct (update_all pandas clock (S k) l (files_after o))
        as [[fs' out] e']. simpl in *.
      exists rs2. split; [exact Hrs2 | lia].
    + exists rs. split; [assumption | simpl; lia].
Qed.

Lemma update_all_read_only (clock : nat -> date) (l : list segment_data) :
  forall (k : nat) (fs : files),
    writable fs = false ->
    fst (fst (update_all pandas clock k l fs)) = fs.
Proof.
  induction l as [|sd l IH]; intros k fs Hw; simpl; [reflexivity|].
  destruct (update_master_log pandas (clock k) sd fs) as [o|e] eqn:Ho;
    [|reflexivity].
  pose proof (@update_master_log_read_only (clock k) sd fs o Hw Ho) as Hfs.
  specialize (IH (S k) (files_after o)). rewrite Hfs in IH |- *.
  specialize (IH Hw).
  now destruct (update_all pandas clock (S k) l fs) as [[fs' out] e'].
Qed.

(** The charts of the plot loop are those of the snapshots for which
    [generate_plot] makes one, in the order of the loop. *)
Lemma plot_all_ids (l : list segment_data) (fs : files) :
  map plot_segment_id (fst (plot_all pandas l fs)) =
  map seg_id (filter (charted pandas fs) l).
Proof.
  induction l as [|sd l IH]; simpl; [reflexivity|].
  unfold charted at 1.
  destruct (generate_plot pandas (seg_id sd) (seg_name sd) fs)
    as [[c|] out] eqn:Hplot;
    destruct (plot_all pandas l fs) as [cs outs]; simpl in *.
  - f_equal; [|exact IH].
    destruct (generate_plot_chart pandas _ _ fs Hplot)
      as (content & df & sid & Hfs & Hread & Hid & Hcol & Hne).
    destruct (@generate_plot_frame pandas (seg_id sd) (seg_name sd) fs
                content df sid Hfs Hread Hid Hcol Hne)
      as (first & rest & _ & H).
    rewrite H in Hplot. now injection Hplot as <-.
  - exact IH.
Qed.

End Kept.

(** X23, the log stays in the program's format: from a log that is absent,
    empty, or made of the header and rows of the program, any run of calls,
    whatever the snapshots, however the library reads the file, and whether
    the calls return, the writes succeed or an exception ends the run,
    leaves a log that is absent, empty, or made of the header and rows of
    the program, with at most one row more per call. *)
Theorem log_format_is_kept (pandas : list line -> read_result)
  (clock : nat -> date) (l : list segment_data) (fs : files)
  (rs : list data_row) :
  holds_rows fs rs ->
  exists rs',
    holds_rows (fst (fst (update_all pandas clock 0 l fs))) rs' /\
    (List.length rs' <= List.length rs + List.length l)%nat.
Proof. apply update_all_keeps_format. Qed.

Lemma log_format_is_kept_witness :
  exists rs',
    holds_rows
      (fst (fst (update_all unreadable (fun _ => jan2) 0
                   [snapshot "1" 150; snapshot "x" 3;
                    snapshot "9223372036854775808" 9;
                    {| seg_id := PyStr "2"; seg_name := "Col";
                       effort_count := PyStr "n/a";
                       athlete_count := PyInt 0 |};
                    snapshot "3" 150]
                   (log_with [logged 1 jan1 100 0]))))
      rs' /\
    (List.length rs' <= List.length [logged 1 jan1 100 0] + 5)%nat.
Proof.
  apply (@log_format_is_kept unreadable (fun _ => jan2)
           [snapshot "1" 150; snapshot "x" 3;
            snapshot "9223372036854775808" 9;
            {| seg_id := PyStr "2"; seg_name := "Col";
               effort_count := PyStr "n/a"; athlete_count := PyInt 0 |};
            snapshot "3" 150]
           (log_with [logged 1 jan1 100 0]) [logged 1 jan1 100 0]).
  right. reflexivity.
Defined.

(** X24, a log that cannot be written: a run leaves the log file exactly as
    it found it, whatever is fetched and whatever the file holds. *)
Theorem read_only_log_is_untouched (pandas : list line -> read_result)
  (api : string -> response) (ids : list string) (clock : nat -> date)
  (fs : files) :
  writable fs = false ->
  files_end (main pandas api ids clock fs) = fs.
Proof.
  intros Hw. unfold main.
  destruct (all_segment_data_current (fetch_all api ids)) as [|sd l];
    [reflexivity|].
  pose proof (update_all_read_only pandas clock (sd :: l) 0%nat fs Hw) as H.
  destruct (update_all pandas clock 0 (sd :: l) fs) as [[fs' out] [e|]];
    simpl in H; subst fs'; [reflexivity|].
  now destruct (plot_all pandas (sd :: l) fs).
Qed.

Lemma read_only_log_is_untouched_witness :
  files_end (main unreadable second_fails ["1"; "2"; "3"] (fun _ => jan2)
               (read_only damaged_log)) = read_only damaged_log.
Proof.
  apply (@read_only_log_is_untouched unreadable second_fails ["1"; "2"; "3"]
           (fun _ => jan2) (read_only damaged_log)).
  reflexivity.
Defined.

Lemma filter_never {A : Type} (l : list A) : filter (fun _ => false) l = [].
Proof. induction l as [|x l IH]; [reflexivity | exact IH]. Qed.

(** X25, charts only for fetched segments: in every run the charts are those
    of the fetched segments for which [generate_plot] makes a chart from the
    log that the update loop leaves, each bearing the identifier of its
    segment, in the order of the fetches; there is none when an exception
    ends the update loop, and there are never more charts than segments
    processed. *)
Theorem charts_only_for_fetched (pandas : list line -> read_result)
  (api : string -> response) (ids : list string) (clock : nat -> date)
  (fs : files) :
  let r := main pandas api ids clock fs in
  map plot_segment_id (charts r) =
  map seg_id
    (filter (fun sd => (exit_status r =? 0) && charted pandas (files_end r) sd)
       (fetched_data api ids)) /\
  (List.length (charts r) <= processed_count (fetch_all api ids))%nat.
Proof.
  assert (Hmain :
            map plot_segment_id (charts (main pandas api ids clock fs)) =
            map seg_id
              (filter (fun sd =>
                         (exit_status (main pandas api ids clock fs) =? 0)
                         && charted pandas
                              (files_end (main pandas api ids clock fs)) sd)
                 (fetched_data api ids))).
  { destruct (fetch_all_spec api ids) as (Ha & _ & _).
    unfold main. rewrite Ha.
    destruct (fetched_data api ids) as [|sd l] eqn:Hfd; [reflexivity|].
    destruct (update_all pandas clock 0 (sd :: l) fs) as [[fs' out] [e|]].
    - cbn [exit_status charts]. change (1 =? 0) with false.
      cbn [andb map]. now rewrite filter_never.
    - pose proof (plot_all_ids pandas (sd :: l) fs') as Hk.
      destruct (plot_all pandas (sd :: l) fs') as [cs out_plots].
      cbn [exit_status charts files_end]. change (0 =? 0) with true.
      cbn [andb]. exact Hk. }
  cbv zeta. split; [exact Hmain|].
  rewrite <- (length_map plot_segment_id), Hmain, length_map.
  destruct (fetch_all_spec api ids) as (_ & Hp & _).
  rewrite Hp, <- (length_map PyStr), <- fetched_data_ids, length_map.
  apply filter_length_le.
Qed.
